(** * Tidal readings: a model of [process.py] and its properties

    [process.py] defines one class, [Reader], that wraps a pandas
    DataFrame of tidal readings (columns [dateTime], [stationName],
    [tideValue]) and offers queries over it.  This development embeds the
    class method by method.  The pandas operations the methods call
    ([read_csv], [to_datetime], [to_numeric], [pivot], [loc], [groupby],
    [concat], [to_csv]) are modelled on plain data:

    - a cell is a Python object: a float, a str, a Timestamp, or missing;
    - a DataFrame is an ordered list of named columns over the default
      integer index [0 .. n-1];
    - a method is a computation over the [Reader] instance that may raise.

    Floats are modelled as rationals: what float64 rounds (a mean, an
    integer beyond 2^53 made a float) is exact here.  Text parsing (of
    numbers and of ISO 8601 timestamps) and text writing are parameters of
    the model, and so are the paths that can be written and the two slices
    whose outcome pandas decides from the labels at hand. *)

From Stdlib Require Import List String Ascii ZArith QArith Qminmax Qround Bool Lia.
From Stdlib Require Import DecimalString Sorted.
Import ListNotations.

Open Scope string_scope.
Open Scope list_scope.

(** ** Cells *)

Inductive value : Type :=
| VNaN                 (* missing: NaN, NaT *)
| VFloat (q : Q)       (* a number *)
| VStr (s : string)    (* text *)
| VTime (t : Z).       (* a pandas Timestamp, as a point on the time line *)

Definition is_nan (v : value) : bool :=
  match v with VNaN => true | _ => false end.

Definition is_time (v : value) : bool :=
  match v with VTime _ => true | _ => false end.

Definition is_text (v : value) : bool :=
  match v with VStr _ => true | _ => false end.

(** The order in which [pivot] and [groupby] lay out their keys: a
    missing key before every other, then numbers, text and timestamps each
    by their own order.  Numbers and text, or text and timestamps, do not
    meet in one column that a [Reader] holds; the order between them only
    makes the function total. *)
Definition value_compare (a b : value) : comparison :=
  match a, b with
  | VNaN, VNaN => Eq
  | VNaN, _ => Lt
  | _, VNaN => Gt
  | VFloat p, VFloat q => Qcompare p q
  | VFloat _, _ => Lt
  | VStr _, VFloat _ => Gt
  | VStr s, VStr t => String.compare s t
  | VStr _, _ => Lt
  | VTime _, VFloat _ => Gt
  | VTime _, VStr _ => Gt
  | VTime s, VTime t => Z.compare s t
  end.

Definition value_eqb (a b : value) : bool :=
  match value_compare a b with Eq => true | _ => false end.

Definition value_leb (a b : value) : bool :=
  match value_compare a b with Gt => false | _ => true end.

(** Sorted keys without repetition, as [pivot] and [groupby] build them. *)
Fixpoint insert_key (k : value) (l : list value) : list value :=
  match l with
  | [] => [k]
  | x :: r =>
      match value_compare k x with
      | Lt => k :: l
      | Eq => l
      | Gt => x :: insert_key k r
      end
  end.

Definition sorted_unique (l : list value) : list value :=
  fold_right insert_key [] l.

(** ** Errors and results *)

Inductive error : Type :=
| KeyError (key : string)
| ValueError (msg : string)
| TypeError (msg : string)
| FileNotFoundError (path : string)
| PermissionError (path : string)
| ParserError (path : string)
| OSError (path : string).

Inductive result (A : Type) : Type :=
| Ok (a : A)
| Err (e : error).
Arguments Ok {A} a.
Arguments Err {A} e.

Definition is_ok {A} (r : result A) : bool :=
  match r with Ok _ => true | Err _ => false end.

(** ** DataFrames *)

Definition column : Type := list value.
Definition DataFrame : Type := list (string * column).

Definition columns (df : DataFrame) : list string := map fst df.

(** [len(df.index)] *)
Definition nrows (df : DataFrame) : nat :=
  match df with
  | [] => 0%nat
  | (_, c) :: _ => List.length c
  end.

Fixpoint find_col (name : string) (df : DataFrame) : option column :=
  match df with
  | [] => None
  | (n, c) :: r => if String.eqb n name then Some c else find_col name r
  end.

(** [df[name]] *)
Definition getitem (df : DataFrame) (name : string) : result column :=
  match find_col name df with
  | Some c => Ok c
  | None => Err (KeyError name)
  end.

(** [df[name] = c]: an existing column is replaced in place, a new one is
    added as the last column. *)
Fixpoint setitem (df : DataFrame) (name : string) (c : column) : DataFrame :=
  match df with
  | [] => [(name, c)]
  | (n, c0) :: r =>
      if String.eqb n name then (n, c) :: r else (n, c0) :: setitem r name c
  end.

(** ** The Reader instance and its methods' monad *)

Record Reader : Type := mkReader {
  filename : string;
  data : DataFrame
}.

(** A method body: it reads and updates the instance and either returns
    or raises; an exception leaves the updates made so far in place. *)
Definition M (A : Type) : Type := Reader -> result A * Reader.

Definition ret {A} (a : A) : M A := fun r => (Ok a, r).

Definition bind {A B} (m : M A) (k : A -> M B) : M B :=
  fun r =>
    match m r with
    | (Ok a, r') => k a r'
    | (Err e, r') => (Err e, r')
    end.

Definition lift {A} (x : result A) : M A := fun r => (x, r).

Definition get_data : M DataFrame := fun r => (Ok (data r), r).

Definition put_data (df : DataFrame) : M unit :=
  fun r => (Ok tt, mkReader (filename r) df).

Notation "x <- m ;; k" := (bind m (fun x => k))
  (at level 61, m at next level, right associativity).
Notation "m ;;; k" := (bind m (fun _ => k))
  (at level 61, right associativity).

(** [self.data[name]] *)
Definition self_getitem (name : string) : M column :=
  df <- get_data ;; lift (getitem df name).

(** [self.data[name] = c] *)
Definition self_setitem (name : string) (c : column) : M unit :=
  df <- get_data ;; put_data (setitem df name c).

(** ** pandas operations used by the methods *)

(** A pivoted table: row labels, column labels, and one row of cells per
    row label. *)
Record PivotFrame : Type := mkPivot {
  pindex : list value;
  pcolumns : list value;
  pcells : list (list value)
}.

(** A Series indexed by group key. *)
Definition Series : Type := list (value * value).

(** What [groupby(...).apply(...)] hands back: a Series with one entry
    per group, or, when there is no group at all, a DataFrame without
    rows that keeps the column names it was given. *)
Inductive Applied : Type :=
| AppliedSeries (s : Series)
| AppliedFrame (names : list string).

(** What [station_graph] hands to matplotlib. *)
Record Figure : Type := mkFigure {
  fig_xlabel : string;
  fig_ylabel : string;
  fig_title : string;
  fig_xticks_rotation : Z;
  fig_line : list (value * value)
}.

Fixpoint mapM {A B} (f : A -> result B) (l : list A) : result (list B) :=
  match l with
  | [] => Ok []
  | x :: r =>
      match f x with
      | Err e => Err e
      | Ok y => match mapM f r with
                | Err e => Err e
                | Ok ys => Ok (y :: ys)
                end
      end
  end.

Definition pair_eqb (p q : value * value) : bool :=
  value_eqb (fst p) (fst q) && value_eqb (snd p) (snd q).

(** Two rows carry the same (index, column) pair. *)
Fixpoint has_duplicate (l : list (value * value)) : bool :=
  match l with
  | [] => false
  | p :: r => existsb (pair_eqb p) r || has_duplicate r
  end.

(** The cell of a pivoted table: the value of the row with these two
    keys, missing when there is none. *)
Fixpoint lookup_cell (i c : value) (rows : list (value * value * value)) : value :=
  match rows with
  | [] => VNaN
  | (i', c', v) :: r =>
      if value_eqb i' i && value_eqb c' c then v else lookup_cell i c r
  end.

(** [df.pivot(index=, columns=, values=)]: one row per distinct index key
    and one column per distinct column key, both sorted; a repeated
    (index, column) pair raises. *)
Definition pivot (df : DataFrame) (index cols vals : string) : result PivotFrame :=
  match getitem df index with
  | Err e => Err e
  | Ok ix =>
  match getitem df cols with
  | Err e => Err e
  | Ok cs =>
  match getitem df vals with
  | Err e => Err e
  | Ok vs =>
      if has_duplicate (combine ix cs)
      then Err (ValueError "Index contains duplicate entries, cannot reshape")
      else
        let rows := combine (combine ix cs) vs in
        let pi := sorted_unique ix in
        let pc := sorted_unique cs in
        Ok (mkPivot pi pc
              (map (fun i => map (fun c => lookup_cell i c rows) pc) pi))
  end end end.

(** A label bounds a slice from below or above; no bound, no limit. *)
Definition in_window (lo hi : option value) (k : value) : bool :=
  match lo with None => true | Some a => value_leb a k end
  && match hi with None => true | Some b => value_leb k b end.

(** [df[name]] on a pivoted table. *)
Fixpoint pivot_position (name : value) (cs : list value) : option nat :=
  match cs with
  | [] => None
  | c :: r =>
      if value_eqb c name then Some 0%nat
      else option_map S (pivot_position name r)
  end.

Definition pivot_getitem (p : PivotFrame) (name : string) : result (list (value * value)) :=
  match pivot_position (VStr name) (pcolumns p) with
  | None => Err (KeyError name)
  | Some j => Ok (combine (pindex p) (map (fun row => nth j row VNaN) (pcells p)))
  end.

(** Rows of one group, in table order. *)
Definition group_values (k : value) (keys vals : list value) : list value :=
  map snd (filter (fun kv => value_eqb (fst kv) k) (combine keys vals)).

(** [df.groupby(by).apply(lambda df: f(df[col]))]: groups in sorted key
    order, rows with a missing key dropped.  With no group the function is
    not called and the result is the table without rows, over the columns
    other than the key. *)
Definition groupby_apply (df : DataFrame) (by_ col : string)
  (f : list value -> value) : result Applied :=
  match getitem df by_ with
  | Err e => Err e
  | Ok keys =>
      let ks := sorted_unique (filter (fun k => negb (is_nan k)) keys) in
      match ks with
      | [] =>
          Ok (AppliedFrame
                (filter (fun n => negb (String.eqb n by_)) (columns df)))
      | _ =>
          match getitem df col with
          | Err e => Err e
          | Ok vals =>
              Ok (AppliedSeries
                    (map (fun k => (k, f (group_values k keys vals))) ks))
          end
      end
  end.

(** The numbers of a column, missing cells skipped. *)
Definition floats (l : list value) : list Q :=
  flat_map (fun v => match v with VFloat q => [q] | _ => [] end) l.

(** [Series.max()], [Series.min()], [Series.mean()].  The maximum and
    the minimum are elements of the Series; the mean is the exact one,
    which float64 arithmetic rounds. *)
Definition series_max (l : list value) : value :=
  match floats l with
  | [] => VNaN
  | x :: r => VFloat (fold_left Qmax r x)
  end.

Definition series_min (l : list value) : value :=
  match floats l with
  | [] => VNaN
  | x :: r => VFloat (fold_left Qmin r x)
  end.

Definition Qsum (l : list Q) : Q := fold_left Qplus l 0%Q.

Definition series_mean (l : list value) : value :=
  match floats l with
  | [] => VNaN
  | x :: r => VFloat (Qsum (x :: r) / inject_Z (Z.of_nat (List.length (x :: r))))
  end.

(** [.fillna(0)] and [.astype('float')] *)
Definition fillna0 (v : value) : value :=
  match v with VNaN => VFloat 0 | _ => v end.

Definition astype_float (v : value) : result value :=
  match v with
  | VFloat q => Ok (VFloat q)
  | VNaN => Ok VNaN
  | _ => Err (ValueError "could not convert to float")
  end.

(** [pd.concat([df1, df2], ignore_index=True)]: the rows of [df2] after
    those of [df1], over the union of their columns; a cell of a column
    the other table lacks is missing. *)
Definition column_or_nan (df : DataFrame) (name : string) : column :=
  match find_col name df with
  | Some c => c
  | None => repeat VNaN (nrows df)
  end.

Definition concat (df1 df2 : DataFrame) : DataFrame :=
  let names :=
    columns df1
    ++ filter (fun n => negb (existsb (String.eqb n) (columns df1))) (columns df2) in
  map (fun n => (n, column_or_nan df1 n ++ column_or_nan df2 n)) names.

(** ** Text parsers to instantiate the model with

    pandas' own parsers are outside the program.  The model takes them as
    parameters; the two below are simple ones that fix them on concrete
    inputs. *)

Definition digit_of (c : ascii) : option Z :=
  let n := nat_of_ascii c in
  if (48 <=? n)%nat && (n <=? 57)%nat then Some (Z.of_nat (n - 48)) else None.

Definition is_digit (c : ascii) : bool :=
  match digit_of c with Some _ => true | None => false end.

Fixpoint digits_value (acc : Z) (l : list ascii) : option Z :=
  match l with
  | [] => Some acc
  | c :: r =>
      match digit_of c with
      | Some d => digits_value (10 * acc + d) r
      | None => None
      end
  end.

(** The part before the first dot, and the part after it if there is one. *)
Fixpoint split_dot (l : list ascii) : list ascii * option (list ascii) :=
  match l with
  | [] => ([], None)
  | c :: r =>
      if Ascii.eqb c "."%char then ([], Some r)
      else let (a, b) := split_dot r in (c :: a, b)
  end.

Definition parse_unsigned (l : list ascii) : option Q :=
  match split_dot l with
  | ([], _) => None
  | (ip, None) => option_map inject_Z (digits_value 0 ip)
  | (ip, Some fp) =>
      match digits_value 0 ip, digits_value 0 fp with
      | Some i, Some f =>
          let scale := Pos.pow 10 (Pos.of_nat (List.length fp)) in
          match fp with
          | [] => Some (inject_Z i)
          | _ => Some (Qred (Qmake (i * Zpos scale + f) scale))
          end
      | _, _ => None
      end
  end.

(** Plain decimal literals: an optional sign, digits, an optional
    fraction. *)
Definition parse_decimal (s : string) : option Q :=
  match list_ascii_of_string s with
  | c :: r =>
      if Ascii.eqb c "-"%char then option_map Qopp (parse_unsigned r)
      else if Ascii.eqb c "+"%char then parse_unsigned r
      else parse_unsigned (c :: r)
  | [] => None
  end.

(** UTC timestamps written in full, as [YYYY-MM-DDThh:mm:ssZ] or as
    [YYYY-MM-DD hh:mm:ss+00:00], read as the number YYYYMMDDhhmmss: a key
    that orders them as time does. *)
Definition chars_at (l : list ascii) (positions : list nat) : string :=
  string_of_list_ascii (map (fun i => nth i l " "%char) positions).

Definition iso_key (s : string) : option Z :=
  let l := list_ascii_of_string s in
  let ds := filter is_digit l in
  if (List.length l =? 20)%nat && (List.length ds =? 14)%nat
     && String.eqb (chars_at l [4; 7; 10; 13; 16; 19]%nat) "--T::Z"
  then digits_value 0 ds
  else if (List.length l =? 25)%nat && (List.length ds =? 18)%nat
          && String.eqb (chars_at l [4; 7; 10; 13; 16; 19; 20; 21; 22; 23; 24]%nat)
                        "-- ::+00:00"
  then digits_value 0 (firstn 14 ds)
  else None.

(** ** Text writers to instantiate the model with *)

Definition string_of_Z (z : Z) : string :=
  NilEmpty.string_of_int (Z.to_int z).

Definition pad_zeros (width : nat) (s : string) : string :=
  string_of_list_ascii (repeat "0"%char (width - String.length s)) ++ s.

(** The least number of decimal places, up to [fuel], that write a
    fraction of denominator [d] exactly. *)
Fixpoint decimal_places (fuel : nat) (k : nat) (d : positive) : option nat :=
  if (Z.pow 10 (Z.of_nat k) mod Zpos d =? 0)%Z then Some k
  else match fuel with
       | O => None
       | S fuel' => decimal_places fuel' (S k) d
       end.

(** A number with a finite decimal expansion is written with it, and with
    one decimal place at least, as Python writes a float; any other as a
    fraction. *)
Definition render_decimal (q : Q) : string :=
  let q := Qred q in
  match decimal_places 30 0 (Qden q) with
  | None => string_of_Z (Qnum q) ++ "/" ++ string_of_Z (Zpos (Qden q))
  | Some k =>
      let scale := Z.pow 10 (Z.of_nat k) in
      let m := (Z.abs (Qnum q) * (scale / Zpos (Qden q)))%Z in
      (if (Qnum q <? 0)%Z then "-" else "")
      ++ string_of_Z (m / scale) ++ "."
      ++ pad_zeros (Nat.max k 1) (string_of_Z (m mod scale))
  end.

(** The timestamp of key YYYYMMDDhhmmss, as pandas writes a UTC
    Timestamp. *)
Definition render_iso (t : Z) : string :=
  let ds := pad_zeros 14 (string_of_Z t) in
  substring 0 4 ds ++ "-" ++ substring 4 2 ds ++ "-" ++ substring 6 2 ds
  ++ " " ++ substring 8 2 ds ++ ":" ++ substring 10 2 ds ++ ":"
  ++ substring 12 2 ds ++ "+00:00".

(** ** Slices and paths to instantiate the model with

    The model leaves to pandas what a slice bounded by a str keeps of the
    integer index, and what a bounded slice keeps of row labels that are
    neither all Timestamps nor all text.  The two below keep every row.
    The calls on the sample data further down do not reach them: each
    passes no window, or slices Timestamps, or raises before it slices. *)
Definition slice_every_row (df : list (string * list value))
  (time_from time_to : option string) : result (list (string * list value)) :=
  Ok df.

Definition keep_every_label (ix : list value)
  (time_from time_to : option string) : result (value -> bool) :=
  Ok (fun _ => true).

(** A disk with the working directory and no other: a path can be written
    when it names no directory. *)
Definition in_working_directory (path : string) : bool :=
  forallb (fun c => negb (Ascii.eqb c "/"%char)) (list_ascii_of_string path).

(** ** Files

    The text of a file is taken as already cut into records of fields:
    quoting and the delimiter are the reader's and the writer's business.
    A path holds nothing, something that cannot be opened, something that
    is not a delimited table, or a header and records.  A delimited table
    has a header of one field at least and no record longer than its
    header: a file that has not is among those that are not a delimited
    table.  The names of a header are taken as they stand; [read_csv]
    renames one that repeats an earlier one, so the tables here are those
    of headers without a repeated name. *)

Inductive file : Type :=
| Missing
| Unreadable
| Malformed
| Delimited (header : list string) (records : list (list string)).

Definition filesystem : Type := string -> file.

Definition write_file (fs : filesystem) (path : string) (f : file) : filesystem :=
  fun p => if String.eqb p path then f else fs p.

(** The fields [read_csv] takes for a missing value. *)
Definition na_values : list string :=
  [""; "#N/A"; "#N/A N/A"; "#NA"; "-1.#IND"; "-1.#QNAN"; "-NaN"; "-nan";
   "1.#IND"; "1.#QNAN"; "<NA>"; "N/A"; "NA"; "NULL"; "NaN"; "None"; "n/a";
   "nan"; "null"].

Definition is_na (s : string) : bool := existsb (String.eqb s) na_values.

Definition string_of_nat (n : nat) : string :=
  NilEmpty.string_of_uint (Nat.to_uint n).

(** [range(n)] *)
Definition range (n : nat) : list nat := seq 0 n.

(** ** Sample data *)

Definition two_am : string := "2021-09-20T02:00:00Z".
Definition three_am : string := "2021-09-20T03:00:00Z".
Definition four_am : string := "2021-09-20T04:00:00Z".

(** Two stations read at the same time. *)
Definition newlyn_bangor : list (string * list value) :=
  [("dateTime", [VStr two_am; VStr two_am]);
   ("stationName", [VStr "Newlyn"; VStr "Bangor"]);
   ("tideValue", [VFloat (937 # 1000); VFloat (6 # 5)])].

(** One station whose second height is not a number, as [read_csv]
    delivers such a column: all text. *)
Definition bad_height : list (string * list value) :=
  [("dateTime", [VStr two_am; VStr three_am; VStr four_am]);
   ("stationName", [VStr "X"; VStr "X"; VStr "X"]);
   ("tideValue", [VStr "1.0"; VStr "bad"; VStr "3.0"])].

(** One station read twice, an hour apart. *)
Definition two_readings : list (string * list value) :=
  [("dateTime", [VStr two_am; VStr three_am]);
   ("stationName", [VStr "A"; VStr "A"]);
   ("tideValue", [VFloat 1; VFloat 5])].

(** One station read twice at the same time. *)
Definition repeated_reading : list (string * list value) :=
  [("dateTime", [VStr two_am; VStr two_am]);
   ("stationName", [VStr "Newlyn"; VStr "Newlyn"]);
   ("tideValue", [VFloat (937 # 1000); VFloat (6 # 5)])].



(** A table whose second timestamp is no timestamp and whose second
    height is no number. *)
Definition bad_timestamp : list (string * list value) :=
  [("dateTime", [VStr two_am; VStr "yesterday"]);
   ("stationName", [VStr "Newlyn"; VStr "Bangor"]);
   ("tideValue", [VStr "1.0"; VStr "bad"])].

(** Two stations, each read once, an hour apart. *)
Definition staggered : list (string * list value) :=
  [("dateTime", [VStr two_am; VStr three_am]);
   ("stationName", [VStr "Newlyn"; VStr "Bangor"]);
   ("tideValue", [VFloat (937 # 1000); VStr "bad"])].

(** A disk with one file, which has no [tideValue] column. *)
Definition disk_without_heights : string -> file :=
  fun path =>
    if String.eqb path "tides.csv"
    then Delimited ["dateTime"; "stationName"] [[two_am; "Newlyn"]]
    else Missing.

Definition empty_disk : string -> file := fun _ => Missing.

(** A disk with one file of two readings, one with a height that is not
    a number. *)
Definition disk_with_readings : string -> file :=
  fun path =>
    if String.eqb path "tideReadings.csv"
    then Delimited ["dateTime"; "stationName"; "tideValue"]
           [[two_am; "Newlyn"; "0.937"]; [two_am; "Bangor"; "bad"]]
    else Missing.

Section Pandas.

#[local] Set Default Proof Using "Type".

(** The number parser of [to_numeric] and [read_csv], the timestamp
    parser of [to_datetime] and of label slicing, the texts [to_csv]
    writes for a number and for a timestamp, and the paths [to_csv] can
    write: those whose directory exists and takes a new file. *)
Variable parse_numeric : string -> option Q.
Variable parse_datetime : string -> option Z.

(** A slice bound written with less precision than the row labels stands
    for a period (a day, an hour): the slice starts at the period's first
    instant, which is what [parse_datetime] gives, and ends at its last,
    which is what [period_end] gives.  For a timestamp written in full
    the two agree. *)
Variable period_end : string -> option Z.
Variable render_float : Q -> string.
Variable render_time : Z -> string.
Variable writable : string -> bool.

(** A slice of the default integer index bounded by a str, as line 104
    asks for.  The labels of that index are row numbers; what a str bound
    selects among them, or whether it raises, is left to pandas. *)
Variable label_slice :
  DataFrame -> option string -> option string -> result DataFrame.

(** A bounded slice of the row labels of a pivoted table that are neither
    all Timestamps nor all text: a missing label among them, or numbers.
    The rows are kept or dropped whole; which ones, or whether the slice
    raises, is left to pandas. *)
Variable irregular_slice :
  list value -> option string -> option string -> result (value -> bool).

(** [df.loc[a:b, :]] on the default integer index of [self.data]: the
    unbounded slice is the whole table. *)
Definition loc_range (df : DataFrame) (time_from time_to : option string)
  : result DataFrame :=
  match time_from, time_to with
  | None, None => Ok df
  | _, _ => label_slice df time_from time_to
  end.

(** [pd.to_datetime]: text is parsed and an unparsable text raises;
    numbers count from the epoch; missing stays missing. *)
Definition to_datetime_scalar (v : value) : result value :=
  match v with
  | VNaN => Ok VNaN
  | VTime t => Ok (VTime t)
  | VStr s =>
      match parse_datetime s with
      | Some t => Ok (VTime t)
      | None => Err (ValueError s)
      end
  | VFloat q => Ok (VTime (Qfloor q))
  end.

Definition to_datetime (c : column) : result column :=
  mapM to_datetime_scalar c.

(** [pd.to_numeric(errors='coerce')]: what does not parse as a number
    becomes missing. *)
Definition to_numeric_coerce (v : value) : value :=
  match v with
  | VFloat q => VFloat q
  | VStr s =>
      match parse_numeric s with
      | Some q => VFloat q
      | None => VNaN
      end
  | VNaN => VNaN
  | VTime _ => VNaN
  end.

(** [pd.to_numeric(c, errors='coerce').fillna(0).astype('float')].  A
    number stays the number it is: that [astype('float')] rounds an
    integer float64 cannot hold is outside the model. *)
Definition coerce_column (c : column) : result column :=
  mapM astype_float (map fillna0 (map to_numeric_coerce c)).

(** [df.loc[a:b, :]] on a pivoted table.  The unbounded slice keeps
    every row.  The row labels are sorted, so a bounded slice keeps the
    rows whose label lies between the bounds, both included: on a table
    labelled by Timestamps the bounds are parsed as timestamps, and one
    that does not parse raises TypeError; on a table labelled by text the
    bounds are compared as text. *)
Definition loc_bound (parse : string -> option Z) (b : option string)
  : result (option value) :=
  match b with
  | None => Ok None
  | Some s =>
      match parse s with
      | Some t => Ok (Some (VTime t))
      | None => Err (TypeError s)
      end
  end.

Definition loc_rows (ix : list value) (time_from time_to : option string)
  : result (value -> bool) :=
  match time_from, time_to with
  | None, None => Ok (in_window None None)
  | _, _ =>
      if forallb is_time ix then
        match loc_bound parse_datetime time_from with
        | Err e => Err e
        | Ok lo =>
            match loc_bound period_end time_to with
            | Err e => Err e
            | Ok hi => Ok (in_window lo hi)
            end
        end
      else if forallb is_text ix then
        Ok (in_window (option_map VStr time_from) (option_map VStr time_to))
      else irregular_slice ix time_from time_to
  end.

Definition loc_pivot (p : PivotFrame) (time_from time_to : option string)
  : result PivotFrame :=
  match loc_rows (pindex p) time_from time_to with
  | Err e => Err e
  | Ok keep =>
      let kept := filter (fun ir => keep (fst ir))
                         (combine (pindex p) (pcells p)) in
      Ok (mkPivot (map fst kept) (pcolumns p) (map snd kept))
  end.

(** *** [pd.read_csv] *)

(** One column of fields becomes numbers when every field is a number or
    missing, and text otherwise. *)
Definition is_numeric_field (s : string) : bool :=
  is_na s || match parse_numeric s with Some _ => true | None => false end.

Definition infer_column (fields : list string) : column :=
  if forallb is_numeric_field fields
  then map (fun s => if is_na s then VNaN
                     else match parse_numeric s with
                          | Some q => VFloat q
                          | None => VNaN
                          end) fields
  else map (fun s => if is_na s then VNaN else VStr s) fields.

(** A header field left empty is named after its position. *)
Definition column_name (j : nat) (h : string) : string :=
  if String.eqb h "" then "Unnamed: " ++ string_of_nat j else h.

Definition frame_of_records (header : list string) (records : list (list string))
  : DataFrame :=
  map (fun jh => (column_name (fst jh) (snd jh),
                  infer_column (map (fun r => nth (fst jh) r "") records)))
      (combine (range (List.length header)) header).

Definition read_csv (fs : filesystem) (path : string) : result DataFrame :=
  match fs path with
  | Missing => Err (FileNotFoundError path)
  | Unreadable => Err (PermissionError path)
  | Malformed => Err (ParserError path)
  | Delimited header records => Ok (frame_of_records header records)
  end.

(** *** [DataFrame.to_csv] *)

Definition render_value (v : value) : string :=
  match v with
  | VNaN => ""
  | VFloat q => render_float q
  | VStr s => s
  | VTime t => render_time t
  end.

(** The header starts with an empty field for the index; every record
    starts with its row number. *)
Definition records_of_frame (df : DataFrame) : list (list string) :=
  map (fun i => string_of_nat i
                :: map (fun nc => render_value (nth i (snd nc) VNaN)) df)
      (range (nrows df)).

(** A path that cannot be written raises, and nothing is written. *)
Definition to_csv (fs : filesystem) (df : DataFrame) (path : string)
  : result filesystem :=
  if writable path
  then Ok (write_file fs path (Delimited ("" :: columns df) (records_of_frame df)))
  else Err (OSError path).

(** ** The class [Reader] *)

(** [__init__]: lines 34-35. *)
Definition Reader_init (fs : filesystem) (fname : string) : result Reader :=
  match read_csv fs fname with
  | Err e => Err e
  | Ok df => Ok (mkReader fname df)
  end.

(** The statement every aggregate and [station_graph] open with
    (lines 102, 137, 171, 200):
    [self.data['tideValue'] = pd.to_numeric(self.data['tideValue'],
     errors='coerce').fillna(0).astype('float')] *)
Definition coerce_tide_values : M unit :=
  tv <- self_getitem "tideValue" ;;
  tv' <- lift (coerce_column tv) ;;
  self_setitem "tideValue" tv'.

(** Lines 69, 103, 138, 172:
    [self.data['dateTime'] = pd.to_datetime(self.data['dateTime'])] *)
Definition parse_date_times : M unit :=
  dt <- self_getitem "dateTime" ;;
  dt' <- lift (to_datetime dt) ;;
  self_setitem "dateTime" dt'.

(** The [station_name] argument: a str or a list of strs. *)
Inductive station_arg : Type :=
| Station (s : string)
| Stations (l : list string).

(** [station_tides]: lines 69-72. *)
Definition station_tides (station_name : station_arg)
  (time_from time_to : option string) : M PivotFrame :=
  parse_date_times ;;;
  d <- get_data ;;
  df <- lift (pivot d "dateTime" "stationName" "tideValue") ;;
  sta_tid <- lift (loc_pivot df time_from time_to) ;;
  ret sta_tid.

(** The three aggregates share their body but for the last call
    (lines 102-106, 137-141, 171-175).  The slice of line 104 is bound to
    [df], and line 105 rebinds [df] to the groups of [self.data]. *)
Definition aggregate (f : list value -> value)
  (time_from time_to : option string) : M Applied :=
  coerce_tide_values ;;;
  parse_date_times ;;;
  d <- get_data ;;
  df <- lift (loc_range d time_from time_to) ;;
  d <- get_data ;;
  df <- lift (groupby_apply d "stationName" "tideValue" f) ;;
  ret df.

Definition max_tides : option string -> option string -> M Applied :=
  aggregate series_max.

Definition min_tides : option string -> option string -> M Applied :=
  aggregate series_min.

Definition mean_tides : option string -> option string -> M Applied :=
  aggregate series_mean.

(** [station_graph]: lines 200-209.  The figure shown stands for the
    call's effect on the display. *)
Definition station_graph (station_name : string)
  (time_from time_to : option string) : M Figure :=
  coerce_tide_values ;;;
  d <- get_data ;;
  df <- lift (pivot d "dateTime" "stationName" "tideValue") ;;
  df1 <- lift (loc_pivot df time_from time_to) ;;
  line <- lift (pivot_getitem df1 station_name) ;;
  ret (mkFigure "Time & Date" "Tide Height(m)" station_name 90 line).

(** [add_data]: lines 235-239, the definition in force (it replaces the
    one of line 210, whose body is only the docstring).  The table is
    also printed, which changes nothing here. *)
Definition add_data (date_time station_name : string) (tide_value : Q)
  : M DataFrame :=
  df1 <- get_data ;;
  let df2 := [("dateTime", [VStr date_time]);
              ("stationName", [VStr station_name]);
              ("tideValue", [VFloat tide_value])] in
  ret (concat df1 df2).

(** [write_data]: line 252; the result is the file system after the
    write. *)
Definition write_data (fs : filesystem) (fname : string) : M filesystem :=
  d <- get_data ;;
  lift (to_csv fs d fname).

(** [len(reader.data.index)] *)
Definition reading_count (r : Reader) : nat := nrows (data r).

(** [try: body except TypeError: handler] *)
Definition except_TypeError {A} (body handler : result A) : result A :=
  match body with
  | Err (TypeError _) => handler
  | other => other
  end.

(** The script (lines 261-266): load the file of readings and print the
    number of its rows; the result is the lines printed, or the
    exception the script ends with. *)
Definition main (fs : filesystem) : result (list string) :=
  match Reader_init fs "tideReadings.csv" with
  | Err e => Err e
  | Ok reader =>
      except_TypeError (Ok [string_of_nat (reading_count reader)])
                       (Ok ["No data loaded."])
  end.

(** ** Vocabulary of the properties *)

(** What line 102 stores for a height: its number, or 0 when it has
    none. *)
Definition zero_filled (v : value) : value :=
  fillna0 (to_numeric_coerce v).

(** The number a height counts as in the aggregates. *)
Definition coerced_height (v : value) : Q :=
  match to_numeric_coerce v with VFloat q => q | _ => 0%Q end.

(** The heights of one station's readings as the aggregates count them,
    one number per reading, in table order. *)
Definition station_heights (s : string) (st tv : column) : list Q :=
  map coerced_height (group_values (VStr s) st tv).

Definition arithmetic_mean (l : list Q) : Q :=
  (Qsum l / inject_Z (Z.of_nat (List.length l)))%Q.

(** The query methods, and the instance a call leaves behind. *)
Inductive query : Type :=
| QStationTides (station_name : station_arg) (time_from time_to : option string)
| QMaxTides (time_from time_to : option string)
| QMinTides (time_from time_to : option string)
| QMeanTides (time_from time_to : option string)
| QStationGraph (station_name : string) (time_from time_to : option string).

Definition after_query (q : query) (r : Reader) : Reader :=
  match q with
  | QStationTides s a b => snd (station_tides s a b r)
  | QMaxTides a b => snd (max_tides a b r)
  | QMinTides a b => snd (min_tides a b r)
  | QMeanTides a b => snd (mean_tides a b r)
  | QStationGraph s a b => snd (station_graph s a b r)
  end.

(** Whether a query call returns rather than raises. *)
Definition query_returns (q : query) (r : Reader) : bool :=
  match q with
  | QStationTides s a b => is_ok (fst (station_tides s a b r))
  | QMaxTides a b => is_ok (fst (max_tides a b r))
  | QMinTides a b => is_ok (fst (min_tides a b r))
  | QMeanTides a b => is_ok (fst (mean_tides a b r))
  | QStationGraph s a b => is_ok (fst (station_graph s a b r))
  end.

(** A stored cell after a query, against the cell before it: the same,
    or the height made a number, or the timestamp parsed. *)
Definition normalised_cell (name : string) (v v' : value) : Prop :=
  v' = v
  \/ (name = "tideValue" /\ v' = zero_filled v)
  \/ (name = "dateTime" /\ to_datetime_scalar v = Ok v').

Definition normalised_column (c c' : string * column) : Prop :=
  fst c' = fst c /\ Forall2 (normalised_cell (fst c)) (snd c) (snd c').

(** A computation that does not touch the instance. *)
Definition pure {A} (m : M A) : Prop := forall r, snd (m r) = r.

(** One opening statement changes one column, in place. *)
Definition coerce_step (x y : string * column) : Prop :=
  fst y = fst x
  /\ (snd y = snd x
      \/ (fst x = "tideValue" /\ snd y = map zero_filled (snd x))).

Definition parse_step (x y : string * column) : Prop :=
  fst y = fst x
  /\ (snd y = snd x
      \/ (fst x = "dateTime" /\ to_datetime (snd x) = Ok (snd y))).

(** The readings of a table, row by row: timestamp, station, height. *)
Definition readings_of (dt st tv : column) : list (value * value * value) :=
  combine (combine dt st) tv.

(** A timestamp within optional bounds. *)
Definition within (lo hi : option Z) (t : Z) : Prop :=
  match lo with None => True | Some a => (a <= t)%Z end
  /\ match hi with None => True | Some b => (t <= b)%Z end.

Definition parse_bound (parse : string -> option Z) (b : option string)
  : option (option Z) :=
  match b with
  | None => Some None
  | Some s => option_map Some (parse s)
  end.

Definition time_lt (a b : value) : Prop :=
  match a, b with
  | VTime s, VTime t => (s < t)%Z
  | _, _ => False
  end.

(** Keys that are equal only to themselves: text, timestamps, missing. *)
Definition exact_key (k : value) : Prop :=
  match k with VFloat _ => False | _ => True end.

(** Two keys pandas takes for the same key. *)
Definition same_key (a b : value) : Prop := value_compare a b = Eq.

(** The same (timestamp, station) pair at two rows of the table. *)
Definition repeated_pair (l : list (value * value)) : Prop :=
  exists i j p q, (i < j)%nat
    /\ nth_error l i = Some p /\ nth_error l j = Some q
    /\ same_key (fst p) (fst q) /\ same_key (snd p) (snd q).

(** The pivoted table of three columns, cut to the row labels a slice
    keeps, and to a window of row labels. *)
Definition pivot_rows (ix cs vs : column) (keep : value -> bool) : PivotFrame :=
  let rows := readings_of ix cs vs in
  let pc := sorted_unique cs in
  let pi := filter keep (sorted_unique ix) in
  mkPivot pi pc (map (fun i => map (fun c => lookup_cell i c rows) pc) pi).

Definition pivot_window (ix cs vs : column) (lo hi : option value) : PivotFrame :=
  pivot_rows ix cs vs (in_window lo hi).

(** What an aggregate returns on a table with these station names: one
    entry per station, or the table without rows when there is none. *)
Definition applied_to_stations (names : list string) (st : column)
  (g : value -> value) : Applied :=
  match sorted_unique (filter (fun k => negb (is_nan k)) st) with
  | [] => AppliedFrame (filter (fun n => negb (String.eqb n "stationName")) names)
  | k :: ks => AppliedSeries (map (fun k => (k, g k)) (k :: ks))
  end.

Definition duplicate_message : string :=
  "Index contains duplicate entries, cannot reshape".

Definition required_columns : list string :=
  ["dateTime"; "stationName"; "tideValue"].

(** A file whose header lacks one of the required columns. *)
Definition lacks_required_column (f : file) : Prop :=
  match f with
  | Delimited header _ => exists c, In c required_columns /\ ~ In c header
  | _ => True
  end.

(** The largest, the smallest and the mean of a non-empty list of
    numbers. *)
Definition is_maximum (m : Q) (l : list Q) : Prop :=
  In m l /\ forall x, In x l -> (x <= m)%Q.

Definition is_minimum (m : Q) (l : list Q) : Prop :=
  In m l /\ forall x, In x l -> (m <= x)%Q.

(** The table has the three columns, all of one length. *)
Definition tide_table (d : DataFrame) (dt st tv : column) : Prop :=
  getitem d "dateTime" = Ok dt
  /\ getitem d "stationName" = Ok st
  /\ getitem d "tideValue" = Ok tv
  /\ List.length dt = List.length st
  /\ List.length st = List.length tv.

(** The columns a [Reader] holds.  [read_csv] makes a column of numbers
    or a column of text; line 102 makes a column of numbers; line 69
    makes a column of timestamps. *)
Definition numeric_cell (v : value) : Prop :=
  match v with VNaN | VFloat _ => True | _ => False end.

Definition text_cell (v : value) : Prop :=
  match v with VNaN => True | VStr s => is_na s = false | _ => False end.

Definition time_cell (v : value) : Prop :=
  match v with VNaN | VTime _ => True | _ => False end.

Definition plain_text (v : value) : Prop :=
  exists s, v = VStr s /\ parse_numeric s = None.

Definition numeric_column (c : column) : Prop := Forall numeric_cell c.

Definition text_column (c : column) : Prop :=
  Forall text_cell c /\ Exists plain_text c.

Definition time_column (c : column) : Prop := Forall time_cell c.

Definition loaded_column (c : column) : Prop :=
  numeric_column c \/ text_column c.




(** Every column has as many cells as the table has rows. *)
Definition well_formed (d : DataFrame) : Prop :=
  Forall (fun nc => List.length (snd nc) = nrows d) d.



(** The order of the keys of a result: strictly before. *)
Definition key_lt (a b : value) : Prop := value_compare a b = Lt.

(** A cell that holds a number or nothing. *)
Definition number_or_missing (v : value) : Prop :=
  match v with VFloat _ | VNaN => True | _ => False end.


(** The instance holds its heights as numbers; its timestamps parsed. *)
Definition heights_coerced (r : Reader) : Prop :=
  exists tv, find_col "tideValue" (data r) = Some tv
             /\ map zero_filled tv = tv.

Definition timestamps_parsed (r : Reader) : Prop :=
  exists dt, find_col "dateTime" (data r) = Some dt
             /\ to_datetime dt = Ok dt.

(** * Properties *)

(** Keep, of the parameters of the model, those the goal speaks of. *)
Ltac own_variables :=
  try clear render_float; try clear render_time; try clear label_slice;
  try clear irregular_slice; try clear writable;
  try clear parse_numeric; try clear period_end; try clear parse_datetime.


(** ** Keys *)

Lemma string_compare_refl (s : string) : String.compare s s = Eq.
Proof.
  induction s as [|c s IH]; simpl; trivial.
  unfold Ascii.compare. now rewrite N.compare_refl.
Qed.

Lemma value_compare_refl (k : value) : value_compare k k = Eq.
Proof.
  destruct k as [|q|s|t]; simpl; trivial.
  - apply (proj1 (Qeq_alt q q)). reflexivity.
  - apply string_compare_refl.
  - apply Z.compare_refl.
Qed.

Lemma value_eqb_refl (k : value) : value_eqb k k = true.
Proof. unfold value_eqb. now rewrite value_compare_refl. Qed.

Lemma value_compare_eq_exact (k x : value) :
  exact_key k -> value_compare k x = Eq -> x = k.
Proof. own_variables.
  destruct k as [|q|s|t], x as [|q'|s'|t']; simpl; try discriminate; try tauto.
  - intros _ H. apply String.compare_eq_iff in H. now subst.
  - intros _ H. apply Z.compare_eq in H. now subst.
Qed.

Lemma value_compare_eq_exact_r (k x : value) :
  exact_key k -> value_compare x k = Eq -> x = k.
Proof. own_variables.
  destruct k as [|q|s|t], x as [|q'|s'|t']; simpl; try discriminate; try tauto.
  - intros _ H. apply String.compare_eq_iff in H. now subst.
  - intros _ H. apply Z.compare_eq in H. now subst.
Qed.

Lemma value_eqb_exact (k x : value) :
  exact_key k -> value_eqb k x = true -> x = k.
Proof.
  unfold value_eqb. intros Hk H. apply value_compare_eq_exact; trivial.
  destruct (value_compare k x); trivial; discriminate.
Qed.

Lemma value_eqb_exact_r (k x : value) :
  exact_key k -> value_eqb x k = true -> x = k.
Proof.
  unfold value_eqb. intros Hk H. apply value_compare_eq_exact_r; trivial.
  destruct (value_compare x k); trivial; discriminate.
Qed.

Lemma insert_key_In (k x : value) (l : list value) :
  In x (insert_key k l) -> x = k \/ In x l.
Proof.
  own_variables. induction l as [|y r IH]; simpl.
  - intros [H|[]]; auto.
  - destruct (value_compare k y); simpl; intuition.
Qed.

Lemma sorted_unique_In (x : value) (l : list value) :
  In x (sorted_unique l) -> In x l.
Proof. own_variables.
  induction l as [|y r IH]; simpl; trivial.
  intros H. apply insert_key_In in H. intuition.
Qed.

Lemma insert_key_keeps (k x : value) (l : list value) :
  In x l -> In x (insert_key k l).
Proof.
  induction l as [|y r IH]; simpl; [tauto|].
  intros [H|H]; destruct (value_compare k y); simpl; auto.
Qed.

Lemma insert_key_exact (k : value) (l : list value) :
  exact_key k -> In k (insert_key k l).
Proof.
  intros Hk. induction l as [|y r IH]; simpl; auto.
  destruct (value_compare k y) eqn:E; simpl; auto.
  left. apply value_compare_eq_exact in E; auto.
Qed.

Lemma sorted_unique_exact (k : value) (l : list value) :
  exact_key k -> In k l -> In k (sorted_unique l).
Proof.
  intros Hk. induction l as [|y r IH]; simpl; [tauto|].
  intros [->|H].
  - now apply insert_key_exact.
  - apply insert_key_keeps. auto.
Qed.

(** ** Tables *)

Lemma find_col_setitem_same (d : DataFrame) (n : string) (c : column) :
  find_col n (setitem d n c) = Some c.
Proof.
  induction d as [|[m c0] r IH]; simpl.
  - now rewrite String.eqb_refl.
  - destruct (String.eqb m n) eqn:E; simpl; rewrite E; trivial.
Qed.

Lemma find_col_setitem_other (d : DataFrame) (n m : string) (c : column) :
  m <> n -> find_col m (setitem d n c) = find_col m d.
Proof.
  intros Hneq. induction d as [|[k c0] r IH]; simpl.
  - destruct (String.eqb_spec n m); congruence.
  - destruct (String.eqb_spec k n) as [->|Hk]; simpl.
    + destruct (String.eqb_spec n m); congruence.
    + now rewrite IH.
Qed.

Lemma getitem_setitem_same (d : DataFrame) (n : string) (c : column) :
  getitem (setitem d n c) n = Ok c.
Proof. unfold getitem. now rewrite find_col_setitem_same. Qed.

Lemma getitem_setitem_other (d : DataFrame) (n m : string) (c : column) :
  m <> n -> getitem (setitem d n c) m = getitem d m.
Proof. intros H. unfold getitem. now rewrite find_col_setitem_other. Qed.

Lemma getitem_find (d : DataFrame) (n : string) (c : column) :
  getitem d n = Ok c <-> find_col n d = Some c.
Proof.
  unfold getitem. destruct (find_col n d); split; congruence.
Qed.

Lemma getitem_find_none (d : DataFrame) (n : string) (e : error) :
  getitem d n = Err e -> find_col n d = None.
Proof. unfold getitem. destruct (find_col n d); congruence. Qed.

Lemma columns_setitem (d : DataFrame) (n : string) (c0 c : column) :
  find_col n d = Some c0 -> columns (setitem d n c) = columns d.
Proof.
  induction d as [|[m c1] r IH]; simpl; [discriminate|].
  destruct (String.eqb m n) eqn:E; simpl; trivial.
  intros H. now rewrite IH.
Qed.

(** Replacing a column changes that column and nothing else. *)
Lemma setitem_columnwise (d : DataFrame) (n : string) (c0 c : column) :
  find_col n d = Some c0 ->
  Forall2 (fun x y => fst y = fst x
                      /\ (snd y = snd x
                          \/ (fst x = n /\ snd x = c0 /\ snd y = c)))
          d (setitem d n c).
Proof.
  induction d as [|[m c1] r IH]; simpl; [discriminate|].
  destruct (String.eqb_spec m n) as [->|Hm]; intros H.
  - injection H as ->. constructor; simpl; auto.
    clear IH. induction r; constructor; auto.
  - constructor; simpl; auto.
Qed.

Lemma mapM_Forall2 {A B} (f : A -> result B) (l : list A) (l' : list B) :
  mapM f l = Ok l' -> Forall2 (fun x y => f x = Ok y) l l'.
Proof.
  revert l'. induction l as [|x r IH]; simpl; intros l' H.
  - injection H as <-. constructor.
  - destruct (f x) eqn:E; [|discriminate].
    destruct (mapM f r); [|discriminate].
    injection H as <-. constructor; auto.
Qed.

Lemma mapM_length {A B} (f : A -> result B) (l : list A) (l' : list B) :
  mapM f l = Ok l' -> List.length l' = List.length l.
Proof.
  intros H. apply mapM_Forall2 in H. symmetry. eapply Forall2_length; eauto.
Qed.

(** Line 102 never raises once the column is there: every cell becomes a
    number. *)
Lemma coerce_column_total (c : column) :
  coerce_column c = Ok (map zero_filled c).
Proof.
  unfold coerce_column. induction c as [|v r IH]; simpl; trivial.
  rewrite IH. unfold zero_filled.
  destruct v as [|q|s|t]; simpl; trivial.
  destruct (parse_numeric s); trivial.
Qed.

Lemma zero_filled_float (v : value) : exists q, zero_filled v = VFloat q.
Proof.
  unfold zero_filled. destruct v as [|q|s|t]; simpl; eauto.
  destruct (parse_numeric s); simpl; eauto.
Qed.

Lemma zero_filled_not_numeric (v : value) :
  to_numeric_coerce v = VNaN -> zero_filled v = VFloat 0.
Proof. unfold zero_filled. now intros ->. Qed.

Lemma zero_filled_numeric (v : value) (q : Q) :
  to_numeric_coerce v = VFloat q -> zero_filled v = VFloat q.
Proof. unfold zero_filled. now intros ->. Qed.

Lemma to_datetime_is_time (c c' : column) :
  to_datetime c = Ok c' ->
  Forall (fun v => v <> VNaN) c -> forallb is_time c' = true.
Proof.
  unfold to_datetime. revert c'. induction c as [|v r IH]; simpl; intros c' H Hall.
  - now injection H as <-.
  - inversion Hall as [|? ? Hv Hr]; subst.
    destruct (to_datetime_scalar v) eqn:E; [|discriminate].
    destruct (mapM to_datetime_scalar r) eqn:E'; [|discriminate].
    injection H as <-. simpl. rewrite (IH _ eq_refl Hr).
    destruct v as [|q|s|t]; simpl in E; try congruence.
    + injection E as <-. trivial.
    + destruct (parse_datetime s); [injection E as <-|discriminate]. trivial.
    + injection E as <-. trivial.
Qed.

(** ** The two opening statements, run *)

Lemma coerce_tide_values_run (r : Reader) :
  coerce_tide_values r =
  match find_col "tideValue" (data r) with
  | Some tv =>
      (Ok tt, mkReader (filename r)
                (setitem (data r) "tideValue" (map zero_filled tv)))
  | None => (Err (KeyError "tideValue"), r)
  end.
Proof.
  unfold coerce_tide_values, self_getitem, self_setitem, bind, get_data,
    lift, put_data, getitem.
  destruct (find_col "tideValue" (data r)); trivial.
  now rewrite coerce_column_total.
Qed.

Lemma parse_date_times_run (r : Reader) :
  parse_date_times r =
  match find_col "dateTime" (data r) with
  | Some dt =>
      match to_datetime dt with
      | Ok dt' => (Ok tt, mkReader (filename r) (setitem (data r) "dateTime" dt'))
      | Err e => (Err e, r)
      end
  | None => (Err (KeyError "dateTime"), r)
  end.
Proof.
  unfold parse_date_times, self_getitem, self_setitem, bind, get_data,
    lift, put_data, getitem.
  destruct (find_col "dateTime" (data r)); trivial.
Qed.

(** ** Aggregates *)

Lemma zero_filled_coerced (v : value) :
  zero_filled v = VFloat (coerced_height v).
Proof.
  unfold zero_filled, coerced_height.
  destruct v as [|q|s|t]; simpl; trivial.
  destruct (parse_numeric s); trivial.
Qed.

Lemma floats_zero_filled (l : list value) :
  floats (map zero_filled l) = map coerced_height l.
Proof.
  induction l as [|v r IH]; simpl; trivial.
  rewrite zero_filled_coerced. simpl. now rewrite <- IH.
Qed.

Lemma group_values_map (f : value -> value) (k : value) (keys vals : list value) :
  group_values k keys (map f vals) = map f (group_values k keys vals).
Proof.
  unfold group_values. revert vals.
  induction keys as [|x r IH]; intros [|v vs]; simpl; trivial.
  destruct (value_eqb x k); simpl; now rewrite IH.
Qed.

Lemma group_values_nonempty (k : value) (keys vals : list value) :
  List.length keys = List.length vals -> In k keys ->
  group_values k keys vals <> [].
Proof. own_variables.
  unfold group_values. revert vals.
  induction keys as [|x r IH]; intros [|v vs]; simpl; try tauto; try discriminate.
  intros Hlen [->|Hin].
  - rewrite value_eqb_refl. discriminate.
  - destruct (value_eqb x k); simpl; [discriminate|]. apply IH; auto.
Qed.

Lemma fold_Qmax_is_maximum (r : list Q) (x : Q) :
  is_maximum (fold_left Qmax r x) (x :: r).
Proof.
  revert x. induction r as [|y r IH]; intros x; simpl.
  - split; [now left|]. intros z [<-|[]]. apply Qle_refl.
  - destruct (IH (Qmax x y)) as [Hin Hle]. split.
    + destruct Hin as [H|H]; [|now right; right].
      rewrite <- H. unfold Qmax, GenericMinMax.gmax.
      destruct (x ?= y)%Q; simpl; auto.
    + intros z [<-|[<-|Hz]].
      * eapply Qle_trans; [apply Q.le_max_l|]. apply Hle. now left.
      * eapply Qle_trans; [apply Q.le_max_r|]. apply Hle. now left.
      * apply Hle. now right.
Qed.

Lemma fold_Qmin_is_minimum (r : list Q) (x : Q) :
  is_minimum (fold_left Qmin r x) (x :: r).
Proof.
  revert x. induction r as [|y r IH]; intros x; simpl.
  - split; [now left|]. intros z [<-|[]]. apply Qle_refl.
  - destruct (IH (Qmin x y)) as [Hin Hle]. split.
    + destruct Hin as [H|H]; [|now right; right].
      rewrite <- H. unfold Qmin, GenericMinMax.gmin.
      destruct (x ?= y)%Q; simpl; auto.
    + intros z [<-|[<-|Hz]].
      * eapply Qle_trans; [|apply Q.le_min_l]. apply Hle. now left.
      * eapply Qle_trans; [|apply Q.le_min_r]. apply Hle. now left.
      * apply Hle. now right.
Qed.

Lemma series_max_spec (l : list value) :
  l <> [] ->
  exists m, series_max (map zero_filled l) = VFloat m
            /\ is_maximum m (map coerced_height l).
Proof.
  intros Hl. unfold series_max. rewrite floats_zero_filled.
  destruct l as [|v r]; [congruence|]. simpl.
  eexists. split; [reflexivity|]. apply fold_Qmax_is_maximum.
Qed.

Lemma series_min_spec (l : list value) :
  l <> [] ->
  exists m, series_min (map zero_filled l) = VFloat m
            /\ is_minimum m (map coerced_height l).
Proof.
  intros Hl. unfold series_min. rewrite floats_zero_filled.
  destruct l as [|v r]; [congruence|]. simpl.
  eexists. split; [reflexivity|]. apply fold_Qmin_is_minimum.
Qed.

Lemma series_mean_spec (l : list value) :
  l <> [] ->
  series_mean (map zero_filled l) = VFloat (arithmetic_mean (map coerced_height l)).
Proof.
  intros Hl. unfold series_mean. rewrite floats_zero_filled.
  destruct l as [|v r]; [congruence|]. reflexivity.
Qed.

(** An aggregate, run on a table that has its columns and whose
    timestamps parse. *)
Lemma aggregate_run (f : list value -> value) (a b : option string)
  (r : Reader) (dt st tv dt' : column) :
  getitem (data r) "dateTime" = Ok dt ->
  getitem (data r) "stationName" = Ok st ->
  getitem (data r) "tideValue" = Ok tv ->
  to_datetime dt = Ok dt' ->
  let d2 := setitem (setitem (data r) "tideValue" (map zero_filled tv))
                    "dateTime" dt' in
  aggregate f a b r =
  (match loc_range d2 a b with
   | Err e => Err e
   | Ok _ =>
       Ok (applied_to_stations (columns (data r)) st
             (fun k => f (group_values k st (map zero_filled tv))))
   end,
   mkReader (filename r) d2).
Proof.
  intros Hdt Hst Htv Hp d2.
  apply getitem_find in Hdt, Hst, Htv.
  assert (Hnames : columns d2 = columns (data r)).
  { unfold d2. rewrite (columns_setitem _ _ dt).
    - now apply (columns_setitem _ _ tv).
    - now rewrite find_col_setitem_other by discriminate. }
  unfold aggregate, bind at 1. rewrite coerce_tide_values_run, Htv.
  unfold bind at 1. rewrite parse_date_times_run. simpl data.
  rewrite find_col_setitem_other by discriminate. rewrite Hdt, Hp.
  unfold bind, get_data, lift, ret. simpl data. simpl filename. fold d2.
  destruct (loc_range d2 a b); trivial.
  unfold groupby_apply, applied_to_stations, getitem. rewrite Hnames. unfold d2.
  rewrite (find_col_setitem_other _ "dateTime" "stationName") by discriminate.
  rewrite (find_col_setitem_other _ "tideValue" "stationName") by discriminate.
  rewrite Hst.
  rewrite (find_col_setitem_other _ "dateTime" "tideValue") by discriminate.
  rewrite find_col_setitem_same.
  destruct (sorted_unique _); trivial.
Qed.

Lemma insert_key_not_nil (k : value) (l : list value) : insert_key k l <> [].
Proof.
  own_variables. destruct l as [|x r]; simpl; [discriminate|].
  destruct (value_compare k x); discriminate.
Qed.

(** A table with a station name has a group. *)
Lemma stations_listed (st : column) (g : value -> value) (names : list string) :
  Exists (fun k => k <> VNaN) st ->
  applied_to_stations names st g =
  AppliedSeries (map (fun k => (k, g k))
                     (sorted_unique (filter (fun k => negb (is_nan k)) st))).
Proof.
  own_variables. intros Hex. unfold applied_to_stations.
  destruct (sorted_unique (filter (fun k => negb (is_nan k)) st)) as [|k ks] eqn:E;
    trivial.
  exfalso. apply Exists_exists in Hex. destruct Hex as (k & Hk & Hnan).
  assert (Hin : In k (filter (fun k => negb (is_nan k)) st)).
  { apply filter_In. split; trivial. now destruct k. }
  destruct (filter (fun k => negb (is_nan k)) st) as [|x r]; [contradiction|].
  simpl in E. now apply insert_key_not_nil in E.
Qed.

Lemma station_named (s : string) (st : column) :
  In (VStr s) st -> Exists (fun k => k <> VNaN) st.
Proof.
  own_variables. intros H. apply Exists_exists. exists (VStr s).
  split; [exact H|discriminate].
Qed.

Lemma station_key_listed (s : string) (st : column) :
  In (VStr s) st ->
  In (VStr s) (sorted_unique (filter (fun k => negb (is_nan k)) st)).
Proof.
  intros H. apply sorted_unique_exact; [exact I|].
  apply filter_In. split; trivial.
Qed.

(** With no window asked for, every aggregate returns; on a table with
    a station name, what it returns is one entry per station, computed by
    [f] from the zero-filled heights of that station's readings. *)
Lemma aggregate_any_table (f : list value -> value) (fname : string)
  (d : DataFrame) (dt st tv dt' : column) :
  tide_table d dt st tv ->
  to_datetime dt = Ok dt' ->
  fst (aggregate f None None (mkReader fname d)) =
  Ok (applied_to_stations (columns d) st
        (fun k => f (map zero_filled (group_values k st tv)))).
Proof.
  intros (Hdt & Hst & Htv & _ & _) Hp.
  rewrite (aggregate_run f None None (mkReader fname d) dt st tv dt'); trivial.
  simpl. f_equal. unfold applied_to_stations.
  destruct (sorted_unique _); trivial.
  f_equal. apply map_ext. intros k. now rewrite group_values_map.
Qed.

Lemma aggregate_whole_table (f : list value -> value) (fname : string)
  (d : DataFrame) (dt st tv dt' : column) :
  tide_table d dt st tv ->
  to_datetime dt = Ok dt' ->
  Exists (fun k => k <> VNaN) st ->
  fst (aggregate f None None (mkReader fname d)) =
  Ok (AppliedSeries
        (map (fun k => (k, f (map zero_filled (group_values k st tv))))
             (sorted_unique (filter (fun k => negb (is_nan k)) st)))).
Proof.
  intros Ht Hp Hex.
  rewrite (aggregate_any_table f fname d dt st tv dt' Ht Hp).
  now rewrite stations_listed.
Qed.

(** The window arguments of an aggregate never shape its result: a call
    that returns, returns what the call without a window returns. *)
Lemma aggregate_window_unused (f : list value -> value)
  (a b : option string) (r : Reader) (s : Applied) :
  fst (aggregate f a b r) = Ok s -> fst (aggregate f None None r) = Ok s.
Proof.
  unfold aggregate, bind.
  destruct (coerce_tide_values r) as [[u|e] r1]; simpl; trivial.
  destruct (parse_date_times r1) as [[u'|e'] r2]; simpl; trivial.
  unfold lift, get_data.
  destruct (loc_range (data r2) a b); simpl; [trivial|discriminate].
Qed.

(** C5. Heights that fail numeric coercion count as 0 in every
    aggregate; none is dropped and none makes the call raise.  For a
    table with its three columns whose timestamps parse, and a station
    [s] of the table: the list [hs] of the station's heights has one
    number per reading, 0 where the height is not a number; [max_tides],
    [min_tides] and [mean_tides] return, and give for [s] the largest
    element of [hs], the smallest, and the sum of [hs] over its length. *)
Theorem non_numeric_heights_count_as_zero (fname : string) (d : DataFrame)
  (dt st tv dt' : column) (s : string) :
  tide_table d dt st tv ->
  to_datetime dt = Ok dt' ->
  In (VStr s) st ->
  let r := mkReader fname d in
  let hs := station_heights s st tv in
  (forall v, to_numeric_coerce v = VNaN -> coerced_height v = 0%Q)
  /\ List.length hs = List.length (group_values (VStr s) st tv)
  /\ hs <> []
  /\ (exists smax mx, fst (max_tides None None r) = Ok (AppliedSeries smax)
                      /\ In (VStr s, VFloat mx) smax /\ is_maximum mx hs)
  /\ (exists smin mn, fst (min_tides None None r) = Ok (AppliedSeries smin)
                      /\ In (VStr s, VFloat mn) smin /\ is_minimum mn hs)
  /\ (exists smean, fst (mean_tides None None r) = Ok (AppliedSeries smean)
                    /\ In (VStr s, VFloat (arithmetic_mean hs)) smean).
Proof.
  intros Ht Hp Hs r hs.
  assert (Hne : group_values (VStr s) st tv <> []).
  { destruct Ht as (_ & _ & _ & _ & Hlen). now apply group_values_nonempty. }
  pose proof (station_key_listed s st Hs) as Hk.
  pose proof (station_named s st Hs) as Hex.
  split; [|split; [|split; [|split; [|split]]]].
  - intros v Hv. unfold coerced_height. now rewrite Hv.
  - unfold hs, station_heights. apply length_map.
  - unfold hs, station_heights. intros H. apply map_eq_nil in H. contradiction.
  - destruct (series_max_spec _ Hne) as (m & Hm & Hmax).
    eexists. exists m. split; [|split].
    + unfold max_tides. eapply aggregate_whole_table; eauto.
    + apply in_map_iff. exists (VStr s). split; [|exact Hk]. now rewrite Hm.
    + exact Hmax.
  - destruct (series_min_spec _ Hne) as (m & Hm & Hmin).
    eexists. exists m. split; [|split].
    + unfold min_tides. eapply aggregate_whole_table; eauto.
    + apply in_map_iff. exists (VStr s). split; [|exact Hk]. now rewrite Hm.
    + exact Hmin.
  - eexists. split.
    + unfold mean_tides. eapply aggregate_whole_table; eauto.
    + apply in_map_iff. exists (VStr s). split; [|exact Hk].
      now rewrite (series_mean_spec _ Hne).
Qed.


(** ** Appending *)

Lemma nrows_concat_one (df1 : DataFrame) (a b c : string) (x y z : value) :
  nrows (concat df1 [(a, [x]); (b, [y]); (c, [z])]) = S (nrows df1).
Proof.
  destruct df1 as [|[n col] rest].
  - unfold concat, column_or_nan. simpl. now rewrite String.eqb_refl.
  - unfold concat. simpl columns. simpl app. simpl map. unfold nrows at 1.
    rewrite length_app. unfold column_or_nan at 1. simpl find_col.
    rewrite String.eqb_refl. unfold nrows.
    assert (H : List.length
                  (column_or_nan [(a, [x]); (b, [y]); (c, [z])] n) = 1%nat).
    { unfold column_or_nan. simpl.
      destruct (String.eqb a n); trivial.
      destruct (String.eqb b n); trivial.
      destruct (String.eqb c n); trivial. }
    rewrite H. lia.
Qed.

(** C2. [add_data] returns a table with one reading more, and leaves the
    instance as it was: the count of [reader.data] does not change, and
    every later query runs on the table without the new reading. *)
Theorem add_data_leaves_reader_unchanged
  (date_time station_name : string) (tide_value : Q) (r : Reader) :
  let r' := snd (add_data date_time station_name tide_value r) in
  r' = r
  /\ reading_count r' = reading_count r
  /\ (exists d, fst (add_data date_time station_name tide_value r) = Ok d
                /\ nrows d = S (reading_count r))
  /\ (forall s a b, station_tides s a b r' = station_tides s a b r)
  /\ (forall a b, max_tides a b r' = max_tides a b r)
  /\ (forall a b, min_tides a b r' = min_tides a b r)
  /\ (forall a b, mean_tides a b r' = mean_tides a b r).
Proof. own_variables.
  unfold add_data, bind, get_data, ret. simpl. intuition.
  eexists. split; [reflexivity|]. apply nrows_concat_one.
Qed.

(** ** What a query leaves in the instance *)

Lemma pure_ret {A} (a : A) : pure (ret a).
Proof. now intros r. Qed.

Lemma pure_lift {A} (x : result A) : pure (lift x).
Proof. now intros r. Qed.

Lemma pure_get_data : pure get_data.
Proof. now intros r. Qed.

Lemma pure_bind {A B} (m : M A) (k : A -> M B) :
  pure m -> (forall a, pure (k a)) -> pure (bind m k).
Proof.
  intros Hm Hk r. unfold bind. specialize (Hm r).
  destruct (m r) as [[a|e] r']; simpl in *; subst; trivial. apply Hk.
Qed.

Lemma snd_bind_pure {A B} (m : M A) (k : A -> M B) (r : Reader) :
  (forall a, pure (k a)) -> snd (bind m k r) = snd (m r).
Proof.
  intros Hk. unfold bind. destruct (m r) as [[a|e] r']; simpl; trivial.
  apply Hk.
Qed.

Create HintDb pure_db.
#[local] Hint Resolve pure_ret pure_lift pure_get_data pure_bind : pure_db.

Lemma Forall2_same {A} (R : A -> A -> Prop) (l : list A) :
  (forall x, R x x) -> Forall2 R l l.
Proof. intros H. induction l; constructor; auto. Qed.

Lemma Forall2_chain {A} (R1 R2 R3 : A -> A -> Prop) (l1 l2 l3 : list A) :
  (forall x y z, R1 x y -> R2 y z -> R3 x z) ->
  Forall2 R1 l1 l2 -> Forall2 R2 l2 l3 -> Forall2 R3 l1 l3.
Proof.
  intros H H1. revert l3. induction H1; intros l3 H2; inversion H2; subst;
    constructor; eauto.
Qed.

Lemma coerce_tide_values_step (r : Reader) :
  filename (snd (coerce_tide_values r)) = filename r
  /\ Forall2 coerce_step (data r) (data (snd (coerce_tide_values r))).
Proof.
  rewrite coerce_tide_values_run.
  destruct (find_col "tideValue" (data r)) as [tv|] eqn:E; simpl.
  - split; trivial.
    eapply Forall2_impl; [|apply (setitem_columnwise _ _ _ _ E)].
    intros x y (Hn & [H|(Hx & Hc & Hy)]); split; auto.
    right. split; trivial. now rewrite Hy, Hc.
  - split; trivial. apply Forall2_same. intros x. split; auto.
Qed.

Lemma parse_date_times_step (r : Reader) :
  filename (snd (parse_date_times r)) = filename r
  /\ Forall2 parse_step (data r) (data (snd (parse_date_times r))).
Proof.
  rewrite parse_date_times_run.
  destruct (find_col "dateTime" (data r)) as [dt|] eqn:E; simpl.
  - destruct (to_datetime dt) as [dt'|e] eqn:Hp; simpl.
    + split; trivial.
      eapply Forall2_impl; [|apply (setitem_columnwise _ _ _ _ E)].
      intros x y (Hn & [H|(Hx & Hc & Hy)]); split; auto.
      right. split; trivial. now rewrite Hy, Hc.
    + split; trivial. apply Forall2_same. intros x. split; auto.
  - split; trivial. apply Forall2_same. intros x. split; auto.
Qed.

Lemma Forall2_map_r {A B} (R : A -> B -> Prop) (f : A -> B) (l : list A) :
  (forall x, R x (f x)) -> Forall2 R l (map f l).
Proof. intros H. induction l; simpl; constructor; auto. Qed.

Lemma coerce_step_normalised (x y : string * column) :
  coerce_step x y -> normalised_column x y.
Proof.
  intros (Hn & [H|(Hx & Hy)]); split; trivial.
  - rewrite H. apply Forall2_same. intros v. now left.
  - rewrite Hy. apply Forall2_map_r. intros v. right. left. auto.
Qed.

Lemma parse_step_normalised (x y : string * column) :
  parse_step x y -> normalised_column x y.
Proof.
  intros (Hn & [H|(Hx & Hy)]); split; trivial.
  - rewrite H. apply Forall2_same. intros v. now left.
  - apply mapM_Forall2 in Hy. eapply Forall2_impl; [|exact Hy].
    intros v v' Hv. right. right. auto.
Qed.

Lemma coerce_then_parse_normalised (x y z : string * column) :
  coerce_step x y -> parse_step y z -> normalised_column x z.
Proof.
  intros (Hn & [H|(Hx & Hy)]) (Hn' & [H'|(Hx' & Hy')]).
  - split; [congruence|]. rewrite H', H. apply Forall2_same. now left.
  - apply parse_step_normalised. destruct x, y, z; simpl in *; subst.
    split; simpl; auto.
  - apply coerce_step_normalised. destruct x, y, z; simpl in *; subst.
    split; simpl; auto.
  - congruence.
Qed.

Lemma normalised_columns_names (d d' : DataFrame) :
  Forall2 normalised_column d d' -> columns d' = columns d.
Proof.
  unfold columns. induction 1 as [|x y l l' [Hn _] _ IH]; simpl; congruence.
Qed.

Lemma normalised_columns_nrows (d d' : DataFrame) :
  Forall2 normalised_column d d' -> nrows d' = nrows d.
Proof.
  destruct 1 as [|[n c] [n' c'] l l' [_ Hc] _]; simpl in *; trivial.
  symmetry. eapply Forall2_length; eauto.
Qed.

Lemma normalised_columns_other (d d' : DataFrame) (name : string) :
  Forall2 normalised_column d d' ->
  name <> "tideValue" -> name <> "dateTime" ->
  find_col name d' = find_col name d.
Proof.
  intros H Htv Hdt.
  induction H as [|[n c] [n' c'] l l' [Hn Hc] _ IH]; simpl in *; trivial.
  subst n'. destruct (String.eqb_spec n name) as [->|Hne]; trivial.
  f_equal. clear IH. induction Hc as [|v v' ? ? Hv _ IHc]; trivial.
  f_equal; trivial. destruct Hv as [Hv|[[Hv _]|[Hv _]]]; congruence.
Qed.

Lemma after_station_tides (s : station_arg) (a b : option string) (r : Reader) :
  snd (station_tides s a b r) = snd (parse_date_times r).
Proof.
  unfold station_tides. apply snd_bind_pure. intros _. auto 10 with pure_db.
Qed.

Lemma after_aggregate (f : list value -> value) (a b : option string)
  (r : Reader) :
  snd (aggregate f a b r) =
  match coerce_tide_values r with
  | (Ok _, r1) => snd (parse_date_times r1)
  | (Err _, r1) => r1
  end.
Proof.
  unfold aggregate, bind at 1.
  destruct (coerce_tide_values r) as [[u|e] r1]; cbn [fst snd]; auto.
  apply snd_bind_pure. intros _. auto 10 with pure_db.
Qed.

Lemma after_station_graph (s : string) (a b : option string) (r : Reader) :
  snd (station_graph s a b r) = snd (coerce_tide_values r).
Proof.
  unfold station_graph. apply snd_bind_pure. intros _. auto 10 with pure_db.
Qed.

Lemma after_query_normalised (q : query) (r : Reader) :
  filename (after_query q r) = filename r
  /\ Forall2 normalised_column (data r) (data (after_query q r)).
Proof.
  assert (Hagg : forall f a b,
             filename (snd (aggregate f a b r)) = filename r
             /\ Forall2 normalised_column (data r) (data (snd (aggregate f a b r)))).
  { intros f a b.
    destruct (coerce_tide_values_step r) as [Hf1 H1].
    destruct (parse_date_times_step (snd (coerce_tide_values r))) as [Hf2 H2].
    rewrite after_aggregate.
    destruct (coerce_tide_values r) as [[u|e] r1]; cbn [fst snd] in *.
    - split; [congruence|].
      eapply Forall2_chain; [|exact H1|exact H2].
      apply coerce_then_parse_normalised.
    - split; trivial. eapply Forall2_impl; [|exact H1].
      apply coerce_step_normalised. }
  destruct q as [s a b|a b|a b|a b|s a b]; simpl.
  - rewrite after_station_tides.
    destruct (parse_date_times_step r) as [Hf H]. split; trivial.
    eapply Forall2_impl; [|exact H]. apply parse_step_normalised.
  - apply Hagg.
  - apply Hagg.
  - apply Hagg.
  - rewrite after_station_graph.
    destruct (coerce_tide_values_step r) as [Hf H]. split; trivial.
    eapply Forall2_impl; [|exact H]. apply coerce_step_normalised.
Qed.

(** C3 (as amended). A query never adds, removes or reorders stored
    readings and never touches a station name or any other column; the
    stored cells it may replace are the heights, each by its number (0 for
    a height that is not a number), and the timestamps, each by its parsed
    Timestamp.  A height that is a number and a timestamp that is already
    parsed are stored back as they were. *)
Theorem queries_only_normalise_cells (q : query) (r : Reader) :
  let r' := after_query q r in
  filename r' = filename r
  /\ columns (data r') = columns (data r)
  /\ reading_count r' = reading_count r
  /\ Forall2 normalised_column (data r) (data r')
  /\ (forall name, name <> "tideValue" -> name <> "dateTime" ->
                   find_col name (data r') = find_col name (data r))
  /\ (forall x, zero_filled (VFloat x) = VFloat x)
  /\ (forall t, to_datetime_scalar (VTime t) = Ok (VTime t)).
Proof.
  destruct (after_query_normalised q r) as [Hf H]. simpl.
  split; [exact Hf|].
  split; [now apply normalised_columns_names|].
  split; [now apply normalised_columns_nrows|].
  split; [exact H|].
  split; [|split; reflexivity].
  intros name Htv Hdt. now apply normalised_columns_other.
Qed.

(** ** Pivoting *)

Lemma pivot_run (d : DataFrame) (i c v : string) (ix cs vs : column) :
  getitem d i = Ok ix -> getitem d c = Ok cs -> getitem d v = Ok vs ->
  pivot d i c v =
  if has_duplicate (combine ix cs)
  then Err (ValueError duplicate_message)
  else Ok (pivot_window ix cs vs None None).
Proof.
  intros Hi Hc Hv. unfold pivot. rewrite Hi, Hc, Hv.
  destruct (has_duplicate (combine ix cs)); trivial.
  unfold pivot_window, pivot_rows, in_window. simpl.
  rewrite forallb_filter_id; trivial. now apply forallb_forall.
Qed.

Lemma filter_combine_map {A B} (keep : A -> bool) (g : A -> B) (l : list A) :
  filter (fun ir => keep (fst ir)) (combine l (map g l)) =
  map (fun i => (i, g i)) (filter keep l).
Proof.
  induction l as [|x r IH]; simpl; trivial.
  destruct (keep x); simpl; now rewrite IH.
Qed.

Lemma loc_pivot_window (ix cs vs : column) (a b : option string) :
  loc_pivot (pivot_window ix cs vs None None) a b =
  match loc_rows (sorted_unique ix) a b with
  | Err e => Err e
  | Ok keep => Ok (pivot_rows ix cs vs keep)
  end.
Proof.
  unfold loc_pivot, pivot_window, pivot_rows. cbn [pindex pcolumns pcells].
  assert (Hall : filter (in_window None None) (sorted_unique ix) = sorted_unique ix).
  { apply forallb_filter_id. now apply forallb_forall. }
  rewrite Hall.
  destruct (loc_rows (sorted_unique ix) a b) as [keep|e]; trivial.
  rewrite filter_combine_map. rewrite !map_map. simpl.
  now rewrite map_id.
Qed.

(** The rows a slice bounded by timestamps keeps of a table labelled by
    Timestamps. *)
Lemma loc_rows_time (ix : list value) (a b : option string) (lo hi : option Z) :
  forallb is_time ix = true ->
  parse_bound parse_datetime a = Some lo ->
  parse_bound period_end b = Some hi ->
  loc_rows ix a b = Ok (in_window (option_map VTime lo) (option_map VTime hi)).
Proof.
  intros Hix. unfold loc_rows, loc_bound, parse_bound. rewrite Hix.
  destruct a as [s|], b as [s'|]; simpl;
    try destruct (parse_datetime s); try destruct (period_end s'); simpl;
    intros [= <-] [= <-]; reflexivity.
Qed.

(** [station_tides], run on a table that has its columns and whose
    timestamps parse. *)
Lemma station_tides_run (s : station_arg) (a b : option string) (r : Reader)
  (dt st tv dt' : column) :
  getitem (data r) "dateTime" = Ok dt ->
  getitem (data r) "stationName" = Ok st ->
  getitem (data r) "tideValue" = Ok tv ->
  to_datetime dt = Ok dt' ->
  station_tides s a b r =
  (if has_duplicate (combine dt' st)
   then Err (ValueError duplicate_message)
   else match loc_rows (sorted_unique dt') a b with
        | Err e => Err e
        | Ok keep => Ok (pivot_rows dt' st tv keep)
        end,
   mkReader (filename r) (setitem (data r) "dateTime" dt')).
Proof.
  intros Hdt Hst Htv Hp.
  unfold station_tides, bind at 1. rewrite parse_date_times_run.
  rewrite (proj1 (getitem_find _ _ _) Hdt), Hp.
  unfold bind, get_data, lift, ret. simpl data.
  rewrite (pivot_run _ _ _ _ dt' st tv).
  - destruct (has_duplicate (combine dt' st)); trivial.
    rewrite loc_pivot_window.
    destruct (loc_rows (sorted_unique dt') a b); trivial.
  - apply getitem_setitem_same.
  - now rewrite getitem_setitem_other by discriminate.
  - now rewrite getitem_setitem_other by discriminate.
Qed.

(** What a returning call of [station_tides] went through. *)
Lemma station_tides_ok (s : station_arg) (a b : option string) (r : Reader)
  (p : PivotFrame) :
  fst (station_tides s a b r) = Ok p ->
  exists dt st tv dt' keep,
    getitem (data r) "dateTime" = Ok dt
    /\ getitem (data r) "stationName" = Ok st
    /\ getitem (data r) "tideValue" = Ok tv
    /\ to_datetime dt = Ok dt'
    /\ has_duplicate (combine dt' st) = false
    /\ p = pivot_rows dt' st tv keep.
Proof.
  intros H.
  destruct (getitem (data r) "dateTime") as [dt|e] eqn:Hdt.
  2:{ exfalso. revert H. unfold station_tides, bind at 1.
      rewrite parse_date_times_run. apply getitem_find_none in Hdt.
      rewrite Hdt. discriminate. }
  destruct (to_datetime dt) as [dt'|e] eqn:Hp.
  2:{ exfalso. revert H. unfold station_tides, bind at 1.
      rewrite parse_date_times_run.
      rewrite (proj1 (getitem_find _ _ _) Hdt), Hp. discriminate. }
  set (d1 := setitem (data r) "dateTime" dt').
  assert (Hrun : fst (station_tides s a b r) =
                 match pivot d1 "dateTime" "stationName" "tideValue" with
                 | Err e => Err e
                 | Ok df => loc_pivot df a b
                 end).
  { unfold station_tides, bind at 1. rewrite parse_date_times_run.
    rewrite (proj1 (getitem_find _ _ _) Hdt), Hp.
    unfold bind, get_data, lift, ret. simpl data. fold d1.
    destruct (pivot d1 "dateTime" "stationName" "tideValue"); trivial.
    destruct (loc_pivot a0 a b); trivial. }
  rewrite Hrun in H. clear Hrun.
  destruct (getitem (data r) "stationName") as [st|e] eqn:Hst.
  2:{ exfalso. revert H. unfold pivot, d1. rewrite getitem_setitem_same.
      rewrite getitem_setitem_other by discriminate. rewrite Hst. discriminate. }
  destruct (getitem (data r) "tideValue") as [tv|e] eqn:Htv.
  2:{ exfalso. revert H. unfold pivot, d1. rewrite getitem_setitem_same.
      rewrite !getitem_setitem_other by discriminate. rewrite Hst, Htv.
      discriminate. }
  rewrite (pivot_run d1 _ _ _ dt' st tv) in H.
  2:{ apply getitem_setitem_same. }
  2:{ unfold d1. now rewrite getitem_setitem_other by discriminate. }
  2:{ unfold d1. now rewrite getitem_setitem_other by discriminate. }
  destruct (has_duplicate (combine dt' st)) eqn:Hdup; [discriminate|].
  rewrite loc_pivot_window in H.
  destruct (loc_rows (sorted_unique dt') a b) as [keep|e]; [|discriminate].
  injection H as <-. exists dt, st, tv, dt', keep. auto 10.
Qed.

Lemma value_eqb_same_key (a b : value) :
  value_eqb a b = true <-> same_key a b.
Proof.
  unfold value_eqb, same_key.
  destruct (value_compare a b); split; congruence.
Qed.

Lemma pair_eqb_same_key (p q : value * value) :
  pair_eqb p q = true <-> same_key (fst p) (fst q) /\ same_key (snd p) (snd q).
Proof.
  unfold pair_eqb. rewrite andb_true_iff, !value_eqb_same_key. tauto.
Qed.

(** The duplicate check of [pivot] finds exactly the repeated pairs. *)
Lemma has_duplicate_iff (l : list (value * value)) :
  has_duplicate l = true <-> repeated_pair l.
Proof.
  split.
  - induction l as [|p r IH]; simpl; [discriminate|].
    intros H. apply orb_true_iff in H. destruct H as [H|H].
    + apply existsb_exists in H. destruct H as (q & Hq & Hpq).
      apply In_nth_error in Hq. destruct Hq as [n Hn].
      apply pair_eqb_same_key in Hpq.
      exists 0%nat, (S n), p, q. simpl. repeat split; try tauto. lia.
    + destruct (IH H) as (i & j & p' & q' & Hij & Hi & Hj & Hs).
      exists (S i), (S j), p', q'. simpl. repeat split; try tauto. lia.
  - intros (i & j & p & q & Hij & Hi & Hj & Hs).
    revert i j Hij Hi Hj. induction l as [|x r IH]; intros i j Hij Hi Hj.
    + destruct i; discriminate.
    + simpl. apply orb_true_iff. destruct j as [|j]; [lia|].
      destruct i as [|i]; simpl in Hi, Hj.
      * left. injection Hi as ->. apply existsb_exists. exists q. split.
        -- eapply nth_error_In; eauto.
        -- now apply pair_eqb_same_key.
      * right. apply (IH i j); trivial. lia.
Qed.

Lemma has_duplicate_false_iff (l : list (value * value)) :
  has_duplicate l = false <-> ~ repeated_pair l.
Proof.
  rewrite <- has_duplicate_iff. destruct (has_duplicate l); split; congruence.
Qed.

(** C4. The [station_name] argument of [station_tides] has no influence
    on the call: any two values of it give the same result and leave the
    same instance.  The table returned has one column for every station
    of the stored data. *)
Theorem station_tides_ignores_station_name (s1 s2 : station_arg)
  (a b : option string) (r : Reader) :
  station_tides s1 a b r = station_tides s2 a b r
  /\ (forall p, fst (station_tides s1 a b r) = Ok p ->
        exists st, getitem (data r) "stationName" = Ok st
                   /\ pcolumns p = sorted_unique st
                   /\ forall name, In (VStr name) (pcolumns p)
                                   <-> In (VStr name) st).
Proof.
  split; [reflexivity|].
  intros p H. apply station_tides_ok in H.
  destruct H as (dt & st & tv & dt' & keep & _ & Hst & _ & _ & _ & ->).
  exists st. split; [exact Hst|]. split; [reflexivity|].
  intros name. simpl. split.
  - apply sorted_unique_In.
  - now apply sorted_unique_exact.
Qed.

(** C7. On a table that has its columns and whose timestamps parse:
    when two readings carry the same timestamp and the same station, the
    pivot inside [station_tides] raises and the call surfaces that error,
    whatever the window; when no two readings do, the pivot returns and,
    with no window, so does the call. *)
Theorem duplicate_pair_raises_in_pivot (s : station_arg) (r : Reader)
  (dt st tv dt' : column) :
  getitem (data r) "dateTime" = Ok dt ->
  getitem (data r) "stationName" = Ok st ->
  getitem (data r) "tideValue" = Ok tv ->
  to_datetime dt = Ok dt' ->
  let parsed := setitem (data r) "dateTime" dt' in
  (repeated_pair (combine dt' st) ->
     pivot parsed "dateTime" "stationName" "tideValue"
     = Err (ValueError duplicate_message)
     /\ forall a b, fst (station_tides s a b r)
                    = Err (ValueError duplicate_message))
  /\ (~ repeated_pair (combine dt' st) ->
        exists p, pivot parsed "dateTime" "stationName" "tideValue" = Ok p
                  /\ fst (station_tides s None None r) = Ok p).
Proof.
  intros Hdt Hst Htv Hp parsed.
  assert (Hpiv : pivot parsed "dateTime" "stationName" "tideValue" =
                 if has_duplicate (combine dt' st)
                 then Err (ValueError duplicate_message)
                 else Ok (pivot_window dt' st tv None None)).
  { apply pivot_run; unfold parsed.
    - apply getitem_setitem_same.
    - now rewrite getitem_setitem_other by discriminate.
    - now rewrite getitem_setitem_other by discriminate. }
  split.
  - intros Hdup. apply has_duplicate_iff in Hdup. split.
    + now rewrite Hpiv, Hdup.
    + intros a b.
      rewrite (station_tides_run s a b r dt st tv dt'); trivial.
      now rewrite Hdup.
  - intros Hno. apply has_duplicate_false_iff in Hno.
    exists (pivot_window dt' st tv None None). split.
    + now rewrite Hpiv, Hno.
    + rewrite (station_tides_run s None None r dt st tv dt'); trivial.
      now rewrite Hno.
Qed.

(** ** Row labels in time order *)

Lemma insert_key_all (P : value -> Prop) (k : value) (l : list value) :
  P k -> Forall P l -> Forall P (insert_key k l).
Proof.
  intros Hk Hl. apply Forall_forall. intros x Hx.
  apply insert_key_In in Hx. destruct Hx as [->|Hx]; trivial.
  now apply (proj1 (Forall_forall P l) Hl).
Qed.

Lemma insert_key_sorted (t : Z) (l : list value) :
  Forall (fun v => is_time v = true) l ->
  StronglySorted time_lt l ->
  StronglySorted time_lt (insert_key (VTime t) l).
Proof.
  intros Hall Hs. induction l as [|x r IH]; simpl.
  - repeat constructor.
  - inversion Hall as [|? ? Hx Hr]; subst.
    inversion Hs as [|? ? Hsr Hlt]; subst.
    destruct x as [|q|s|u]; try discriminate. simpl.
    destruct (Z.compare_spec t u) as [Heq|Hlt'|Hgt].
    + exact Hs.
    + constructor; [exact Hs|]. constructor; [exact Hlt'|].
      apply Forall_forall. intros y Hy.
      pose proof (proj1 (Forall_forall _ _) Hlt y Hy) as Hu.
      destruct y; simpl in *; try contradiction. lia.
    + constructor; [now apply IH|].
      apply insert_key_all; [exact Hgt|exact Hlt].
Qed.

Lemma sorted_unique_all (P : value -> Prop) (l : list value) :
  Forall P l -> Forall P (sorted_unique l).
Proof.
  induction 1; simpl; [constructor|]. now apply insert_key_all.
Qed.

Lemma sorted_unique_sorted (l : list value) :
  Forall (fun v => is_time v = true) l ->
  StronglySorted time_lt (sorted_unique l).
Proof.
  induction 1 as [|x r Hx Hr IH]; simpl; [constructor|].
  destruct x as [|q|s|t]; try discriminate.
  apply insert_key_sorted; trivial. now apply sorted_unique_all.
Qed.

Lemma filter_sorted {A} (R : A -> A -> Prop) (f : A -> bool) (l : list A) :
  StronglySorted R l -> StronglySorted R (filter f l).
Proof.
  induction 1 as [|x r Hs IH Hall]; simpl; [constructor|].
  destruct (f x); trivial. constructor; trivial.
  apply Forall_forall. intros y Hy. apply filter_In in Hy.
  now apply (proj1 (Forall_forall _ _) Hall).
Qed.

Lemma in_window_within (lo hi : option Z) (t : Z) :
  in_window (option_map VTime lo) (option_map VTime hi) (VTime t) = true
  <-> within lo hi t.
Proof. own_variables.
  unfold in_window, within, value_leb. rewrite andb_true_iff.
  destruct lo as [a|], hi as [b|]; simpl;
    repeat match goal with
           | |- context [Z.compare ?x ?y] => destruct (Z.compare_spec x y)
           end; intuition (try lia; try discriminate).
Qed.

(** ** Cells of the pivoted table *)

Lemma map_fst_combine {A B} (l : list A) (l' : list B) :
  List.length l = List.length l' -> map fst (combine l l') = l.
Proof.
  revert l'. induction l as [|x r IH]; intros [|y r']; simpl;
    try discriminate; trivial.
  intros [= H]. now rewrite IH.
Qed.

Lemma combine_map_self {A B} (g : A -> B) (l : list A) :
  combine l (map g l) = map (fun i => (i, g i)) l.
Proof. induction l; simpl; congruence. Qed.

Lemma lookup_cell_unique (i c v : value) (rows : list (value * value * value)) :
  exact_key i -> exact_key c ->
  has_duplicate (map fst rows) = false ->
  In (i, c, v) rows -> lookup_cell i c rows = v.
Proof.
  intros Hi Hc. induction rows as [|[[i' c'] v'] r IH]; simpl; [tauto|].
  intros Hdup Hin. apply orb_false_iff in Hdup. destruct Hdup as [Hex Hdup].
  destruct Hin as [[= -> -> ->]|Hin].
  - now rewrite !value_eqb_refl.
  - destruct (value_eqb i' i && value_eqb c' c) eqn:E; [|now apply IH].
    exfalso. apply andb_true_iff in E. destruct E as [Ei Ec].
    apply value_eqb_exact_r in Ei, Ec; trivial. subst i' c'.
    assert (Hx : existsb (pair_eqb (i, c)) (map fst r) = true);
      [|congruence].
    apply existsb_exists. exists (i, c). split.
    + apply in_map_iff. exists (i, c, v). auto.
    + unfold pair_eqb. simpl. now rewrite !value_eqb_refl.
Qed.

Lemma lookup_cell_In (i c : value) (rows : list (value * value * value)) :
  exact_key i -> exact_key c ->
  lookup_cell i c rows <> VNaN ->
  In (i, c, lookup_cell i c rows) rows.
Proof.
  intros Hi Hc. induction rows as [|[[i' c'] v'] r IH]; simpl; [congruence|].
  destruct (value_eqb i' i && value_eqb c' c) eqn:E.
  - intros _. left. apply andb_true_iff in E. destruct E as [Ei Ec].
    apply value_eqb_exact_r in Ei, Ec; trivial. now subst.
  - intros H. right. now apply IH.
Qed.

Lemma pivot_position_exact (k : value) (l : list value) :
  exact_key k -> In k l ->
  exists j, pivot_position k l = Some j
            /\ forall (B : Type) (g : value -> B) (d : B),
                 nth j (map g l) d = g k.
Proof.
  intros Hk. induction l as [|x r IH]; simpl; [tauto|].
  intros Hin. destruct (value_eqb x k) eqn:E.
  - apply value_eqb_exact_r in E; trivial. subst x.
    exists 0%nat. split; trivial.
  - destruct Hin as [->|Hin]; [now rewrite value_eqb_refl in E|].
    destruct (IH Hin) as (j & Hj & Hnth). exists (S j).
    rewrite Hj. split; trivial.
Qed.

(** The Series [p[s]] of a pivoted table: the row labels, each with the
    cell of station [s]. *)
Lemma pivot_getitem_window (ix cs vs : column) (lo hi : option value)
  (s : string) :
  In (VStr s) cs ->
  pivot_getitem (pivot_window ix cs vs lo hi) s =
  Ok (map (fun i => (i, lookup_cell i (VStr s) (readings_of ix cs vs)))
          (filter (in_window lo hi) (sorted_unique ix))).
Proof.
  intros Hs. unfold pivot_getitem, pivot_window, pivot_rows. simpl.
  destruct (pivot_position_exact (VStr s) (sorted_unique cs) I) as (j & Hj & Hnth).
  { now apply sorted_unique_exact. }
  rewrite Hj. f_equal. rewrite map_map.
  rewrite <- combine_map_self. f_equal.
  apply map_ext. intros i. apply Hnth.
Qed.

(** C6. On a table that has its three columns, in which every reading
    has a timestamp that parses and no (timestamp, station) pair occurs
    twice, [station_tides] with bounds that parse (or are omitted)
    returns, and for a station [s] of the table the Series [p[s]] of the
    returned table, with [lo] the instant [time_from] starts at and [hi]
    the instant [time_to] ends at (for bounds written in full, the
    instants they name),
    - is in strictly increasing time order;
    - has only points whose timestamp lies between the bounds, both
      included, an omitted bound setting no limit;
    - has every reading of [s] within the bounds, at its timestamp with
      its height; with both bounds omitted that is every reading of [s];
    - has, beyond these readings, only points without a height. *)
Theorem station_series_within_window (station_name : station_arg) (s : string)
  (a b : option string) (lo hi : option Z) (fname : string) (d : DataFrame)
  (dt st tv dt' : column) :
  tide_table d dt st tv ->
  to_datetime dt = Ok dt' ->
  Forall (fun v => v <> VNaN) dt ->
  ~ repeated_pair (combine dt' st) ->
  parse_bound parse_datetime a = Some lo ->
  parse_bound period_end b = Some hi ->
  In (VStr s) st ->
  exists p series,
    fst (station_tides station_name a b (mkReader fname d)) = Ok p
    /\ pivot_getitem p s = Ok series
    /\ StronglySorted time_lt (map fst series)
    /\ (forall k h, In (k, h) series ->
          exists t, k = VTime t /\ within lo hi t)
    /\ (forall t h, In (VTime t, VStr s, h) (readings_of dt' st tv) ->
          within lo hi t -> In (VTime t, h) series)
    /\ (forall t h, In (VTime t, h) series -> h <> VNaN ->
          In (VTime t, VStr s, h) (readings_of dt' st tv)).
Proof.
  intros (Hdt & Hst & Htv & Hl1 & Hl2) Hp Hnan Hno Ha Hb Hs.
  apply has_duplicate_false_iff in Hno.
  pose proof (to_datetime_is_time _ _ Hp Hnan) as Htime.
  assert (Htime' : Forall (fun v => is_time v = true) dt').
  { apply Forall_forall. now apply forallb_forall. }
  assert (Hix : forallb is_time (sorted_unique dt') = true).
  { apply forallb_forall. apply Forall_forall. now apply sorted_unique_all. }
  set (wlo := option_map VTime lo). set (whi := option_map VTime hi).
  exists (pivot_window dt' st tv wlo whi). eexists.
  split; [|split; [apply pivot_getitem_window; exact Hs|]].
  { rewrite (station_tides_run station_name a b (mkReader fname d) dt st tv dt');
      trivial.
    cbn [fst]. rewrite Hno.
    now rewrite (loc_rows_time _ a b lo hi Hix Ha Hb). }
  assert (Hrows : map fst (readings_of dt' st tv) = combine dt' st).
  { unfold readings_of. apply map_fst_combine.
    rewrite length_combine, (mapM_length _ _ _ Hp). lia. }
  split; [|split; [|split]].
  - rewrite map_map. simpl. rewrite map_id.
    apply filter_sorted. now apply sorted_unique_sorted.
  - intros k h Hin. apply in_map_iff in Hin.
    destruct Hin as (i & [= <- <-] & Hi). apply filter_In in Hi.
    destruct Hi as [Hi Hw]. apply sorted_unique_In in Hi.
    pose proof (proj1 (Forall_forall _ _) Htime' i Hi) as Hti.
    destruct i as [|q|x|t]; try discriminate.
    exists t. split; trivial. now apply in_window_within.
  - intros t h Hin Hw. apply in_map_iff. exists (VTime t). split.
    + f_equal. apply lookup_cell_unique; simpl; trivial. now rewrite Hrows.
    + apply filter_In. split; [|now apply in_window_within].
      apply sorted_unique_exact; [exact I|].
      unfold readings_of in Hin. apply in_combine_l in Hin.
      now apply in_combine_l in Hin.
  - intros t h Hin Hh. apply in_map_iff in Hin.
    destruct Hin as (i & [= -> <-] & _).
    apply lookup_cell_In; simpl; trivial.
Qed.

(** ** Loading *)

Lemma column_name_required (j : nat) (h c : string) :
  In c required_columns -> (column_name j h = c <-> h = c).
Proof. own_variables.
  unfold column_name. intros Hc.
  destruct (String.eqb_spec h "") as [->|Hh]; [|tauto].
  simpl in Hc. split; intros H;
    destruct Hc as [<-|[<-|[<-|[]]]]; discriminate.
Qed.

Lemma find_col_map_names {A} (name : string) (f : A -> string) (g : A -> column)
  (l : list A) :
  (forall x, In x l -> f x <> name) ->
  find_col name (map (fun x => (f x, g x)) l) = None.
Proof.
  induction l as [|x r IH]; simpl; trivial.
  intros H. destruct (String.eqb_spec (f x) name) as [E|E].
  - exfalso. apply (H x); auto.
  - apply IH. intros y Hy. apply H. auto.
Qed.

(** A required column the header lacks is not in the loaded table. *)
Lemma frame_of_records_lacks (header : list string)
  (records : list (list string)) (c : string) :
  In c required_columns -> ~ In c header ->
  find_col c (frame_of_records header records) = None.
Proof.
  intros Hc Hh. unfold frame_of_records.
  apply find_col_map_names. intros [j h] Hin. simpl.
  intros E. apply (column_name_required j h c Hc) in E. subst h.
  apply Hh. eapply in_combine_r; eauto.
Qed.

Lemma find_col_after_coerce (r : Reader) (c : string) :
  find_col c (data r) = None ->
  find_col c (data (snd (coerce_tide_values r))) = None.
Proof.
  intros H. rewrite coerce_tide_values_run.
  destruct (find_col "tideValue" (data r)) eqn:E; simpl; trivial.
  destruct (String.eqb_spec c "tideValue") as [->|Hne]; [congruence|].
  now rewrite find_col_setitem_other.
Qed.

Lemma find_col_after_parse (r : Reader) (c : string) :
  find_col c (data r) = None ->
  find_col c (data (snd (parse_date_times r))) = None.
Proof.
  intros H. rewrite parse_date_times_run.
  destruct (find_col "dateTime" (data r)) eqn:E; simpl; trivial.
  destruct (to_datetime c0); simpl; trivial.
  destruct (String.eqb_spec c "dateTime") as [->|Hne]; [congruence|].
  now rewrite find_col_setitem_other.
Qed.

Lemma coerce_tide_values_needs (r : Reader) :
  find_col "tideValue" (data r) = None ->
  is_ok (fst (coerce_tide_values r)) = false.
Proof. intros H. now rewrite coerce_tide_values_run, H. Qed.

Lemma parse_date_times_needs (r : Reader) :
  find_col "dateTime" (data r) = None ->
  is_ok (fst (parse_date_times r)) = false.
Proof. intros H. now rewrite parse_date_times_run, H. Qed.

Lemma pivot_needs (d : DataFrame) (c : string) :
  In c required_columns -> find_col c d = None ->
  is_ok (pivot d "dateTime" "stationName" "tideValue") = false.
Proof.
  intros Hc H. unfold pivot, getitem.
  destruct Hc as [<-|[<-|[<-|[]]]]; rewrite ?H; trivial;
    destruct (find_col "dateTime" d); trivial; rewrite ?H; trivial;
    destruct (find_col "stationName" d); trivial; now rewrite H.
Qed.

Lemma groupby_apply_needs (d : DataFrame) (f : list value -> value) :
  find_col "stationName" d = None ->
  is_ok (groupby_apply d "stationName" "tideValue" f) = false.
Proof. intros H. unfold groupby_apply, getitem. now rewrite H. Qed.

(** Run the first statement of a method body: either it raised, and the
    call raises, or it left the instance [r1]. *)
Ltac run_step m r r1 E :=
  unfold bind at 1;
  let u := fresh "u" in let e := fresh "e" in
  destruct (m r) as [[u|e] r1] eqn:E; cbn [fst snd is_ok]; trivial.

Ltac pivot_raises c Hc H :=
  let Hp := fresh "Hp" in
  pose proof (pivot_needs _ c Hc H) as Hp;
  unfold bind, get_data, lift; cbn [data fst snd];
  destruct (pivot _ _ _ _); [discriminate Hp|reflexivity].

Lemma station_tides_needs (s : station_arg) (a b : option string)
  (r : Reader) (c : string) :
  In c required_columns -> find_col c (data r) = None ->
  is_ok (fst (station_tides s a b r)) = false.
Proof.
  intros Hc H. unfold station_tides. run_step parse_date_times r r1 E.
  pose proof (find_col_after_parse r c H) as H1. rewrite E in H1. simpl in H1.
  pivot_raises c Hc H1.
Qed.

Lemma station_graph_needs (s : string) (a b : option string)
  (r : Reader) (c : string) :
  In c required_columns -> find_col c (data r) = None ->
  is_ok (fst (station_graph s a b r)) = false.
Proof.
  intros Hc H. unfold station_graph. run_step coerce_tide_values r r1 E.
  pose proof (find_col_after_coerce r c H) as H1. rewrite E in H1. simpl in H1.
  pivot_raises c Hc H1.
Qed.

Lemma aggregate_needs (f : list value -> value) (a b : option string)
  (r : Reader) (c : string) :
  In c required_columns -> find_col c (data r) = None ->
  is_ok (fst (aggregate f a b r)) = false.
Proof.
  intros Hc H. unfold aggregate. run_step coerce_tide_values r r1 E1.
  pose proof (find_col_after_coerce r c H) as H1. rewrite E1 in H1. simpl in H1.
  run_step parse_date_times r1 r2 E2.
  pose proof (find_col_after_parse r1 c H1) as H2. rewrite E2 in H2. simpl in H2.
  destruct Hc as [<-|[<-|[<-|[]]]].
  - pose proof (parse_date_times_needs r1 H1) as Hx. now rewrite E2 in Hx.
  - pose proof (groupby_apply_needs (data r2) f H2) as Hg.
    unfold bind, get_data, lift; cbn [data fst snd].
    destruct (loc_range (data r2) a b); trivial.
    destruct (groupby_apply _ _ _ _); [discriminate Hg|reflexivity].
  - pose proof (coerce_tide_values_needs r H) as Hx. now rewrite E1 in Hx.
Qed.

(** C8 (as amended). [Reader(filename)] raises, at once, exactly when
    [read_csv] cannot produce a table: the file is missing, cannot be
    opened, or is not a delimited table.  The header is not checked: a
    delimited table loads whatever its columns are, and when it lacks
    [dateTime], [stationName] or [tideValue] every query on the loaded
    instance raises. *)
Theorem load_fails_iff_read_csv_fails (fs : filesystem) (fname : string) :
  (is_ok (Reader_init fs fname) = false
   <-> fs fname = Missing \/ fs fname = Unreadable \/ fs fname = Malformed)
  /\ (forall header records,
        fs fname = Delimited header records ->
        exists r, Reader_init fs fname = Ok r
                  /\ filename r = fname
                  /\ data r = frame_of_records header records
                  /\ forall c, In c required_columns -> ~ In c header ->
                               forall q, query_returns q r = false).
Proof.
  unfold Reader_init, read_csv. split.
  - destruct (fs fname); simpl; split; intros H; auto; try discriminate.
    destruct H as [H|[H|H]]; discriminate.
  - intros header records ->. eexists. split; [reflexivity|]. simpl.
    split; [reflexivity|]. split; [reflexivity|].
    intros c Hc Hh q.
    pose proof (frame_of_records_lacks header records c Hc Hh) as Hnone.
    destruct q as [s a b|a b|a b|a b|s a b]; simpl.
    + now apply (station_tides_needs s a b _ c).
    + now apply (aggregate_needs series_max a b _ c).
    + now apply (aggregate_needs series_min a b _ c).
    + now apply (aggregate_needs series_mean a b _ c).
    + now apply (station_graph_needs s a b _ c).
Qed.

(** ** Writing and reading back *)

Lemma infer_column_length (fields : list string) :
  List.length (infer_column fields) = List.length fields.
Proof.
  unfold infer_column. destruct (forallb is_numeric_field fields);
    apply length_map.
Qed.

(** What [read_csv] makes of a column of fields. *)
Lemma infer_column_loaded (fields : list string) :
  loaded_column (infer_column fields).
Proof.
  unfold infer_column.
  destruct (forallb is_numeric_field fields) eqn:E.
  - left. apply Forall_forall. intros v Hv. apply in_map_iff in Hv.
    destruct Hv as (s & <- & _). destruct (is_na s); simpl; trivial.
    destruct (parse_numeric s); simpl; trivial.
  - right. split.
    + apply Forall_forall. intros v Hv. apply in_map_iff in Hv.
      destruct Hv as (s & <- & _). destruct (is_na s) eqn:Hs; simpl; trivial.
    + clear -E. induction fields as [|f r IH]; simpl in *; [discriminate|].
      apply andb_false_iff in E. destruct E as [E|E].
      * left. unfold is_numeric_field in E. apply orb_false_iff in E.
        destruct E as [Hna Hp]. rewrite Hna. exists f. split; trivial.
        destruct (parse_numeric f); [discriminate|reflexivity].
      * right. now apply IH.
Qed.

Lemma zero_filled_numeric_column (c : column) :
  numeric_column (map zero_filled c).
Proof.
  apply Forall_forall. intros v Hv. apply in_map_iff in Hv.
  destruct Hv as (x & <- & _). now rewrite zero_filled_coerced.
Qed.

Lemma to_datetime_time_column (c c' : column) :
  to_datetime c = Ok c' -> time_column c'.
Proof.
  intros H. apply mapM_Forall2 in H.
  induction H as [|v v' l l' Hv _ IH]; constructor; trivial.
  destruct v as [|q|s|t]; simpl in Hv.
  - now injection Hv as <-.
  - now injection Hv as <-.
  - destruct (parse_datetime s); [now injection Hv as <-|discriminate].
  - now injection Hv as <-.
Qed.









Lemma read_back (fs fs' : filesystem) (d : DataFrame) (path : string) :
  to_csv fs d path = Ok fs' ->
  read_csv fs' path =
  Ok (frame_of_records ("" :: columns d) (records_of_frame d)).
Proof.
  unfold read_csv, to_csv, write_file.
  destruct (writable path); [|discriminate]. intros [= <-].
  now rewrite String.eqb_refl.
Qed.

Lemma to_csv_writable (fs : filesystem) (d : DataFrame) (path : string) :
  writable path = true ->
  to_csv fs d path =
  Ok (write_file fs path (Delimited ("" :: columns d) (records_of_frame d))).
Proof. unfold to_csv. now intros ->. Qed.





Lemma find_col_length (d : DataFrame) (name : string) (c : column) (n : nat) :
  Forall (fun nc => List.length (snd nc) = n) d ->
  find_col name d = Some c -> List.length c = n.
Proof.
  induction 1 as [|[m c0] r Hx _ IH]; simpl; [discriminate|].
  destruct (String.eqb m name); [now intros [= <-]|exact IH].
Qed.


Lemma nrows_read_back (d : DataFrame) :
  nrows (frame_of_records ("" :: columns d) (records_of_frame d)) = nrows d.
Proof.
  unfold frame_of_records, range. simpl List.length.
  rewrite <- cons_seq. simpl. rewrite infer_column_length, length_map.
  unfold records_of_frame, range. now rewrite length_map, length_seq.
Qed.

Lemma frame_of_records_columns (header : list string)
  (records : list (list string)) :
  List.length (columns (frame_of_records header records)) = List.length header
  /\ (Forall (fun h => h <> "") header ->
      columns (frame_of_records header records) = header).
Proof.
  own_variables. unfold columns, frame_of_records, range. rewrite map_map. simpl.
  generalize 0%nat. induction header as [|h r IH]; intros k; simpl.
  - split; trivial.
  - destruct (IH (S k)) as [IH1 IH2]. split; [now rewrite IH1|].
    intros Hall. inversion Hall as [|? ? Hh Hr]; subst.
    rewrite (IH2 Hr). unfold column_name.
    destruct (String.eqb_spec h ""); [contradiction|reflexivity].
Qed.

(** Every table [read_csv] returns is well formed, and each of its
    columns is one of numbers or one of text. *)
Lemma frame_of_records_well_formed (header : list string)
  (records : list (list string)) :
  well_formed (frame_of_records header records).
Proof.
  unfold well_formed.
  assert (H : forall l : list (nat * string),
             Forall (fun nc : string * column =>
                       List.length (snd nc) = List.length records)
               (map (fun jh => (column_name (fst jh) (snd jh),
                                infer_column
                                  (map (fun r => nth (fst jh) r "") records)))
                    l)).
  { induction l as [|jh l IH]; simpl; constructor; trivial.
    simpl. now rewrite infer_column_length, length_map. }
  unfold frame_of_records.
  destruct (combine (range (List.length header)) header) as [|jh l] eqn:E.
  - constructor.
  - specialize (H (jh :: l)). simpl in *.
    now rewrite infer_column_length, length_map.
Qed.

Lemma frame_of_records_loaded (header : list string)
  (records : list (list string)) (name : string) (c : column) :
  find_col name (frame_of_records header records) = Some c ->
  loaded_column c.
Proof.
  unfold frame_of_records.
  induction (combine (range (List.length header)) header) as [|jh l IH];
    simpl; [discriminate|].
  destruct (String.eqb (column_name (fst jh) (snd jh)) name); trivial.
  intros [= <-]. apply infer_column_loaded.
Qed.

Lemma to_datetime_parsed (c : column) :
  time_column c -> to_datetime c = Ok c.
Proof.
  unfold to_datetime. induction 1 as [|v r Hv _ IH]; simpl; trivial.
  rewrite IH. destruct v as [|q|s|t]; simpl in *; try contradiction; trivial.
Qed.


(** * Further properties of the class *)

(** ** The order of keys *)

Lemma ascii_compare_refl (c : ascii) : Ascii.compare c c = Eq.
Proof. own_variables. unfold Ascii.compare. apply N.compare_refl. Qed.

Lemma ascii_compare_lt_trans (a b c : ascii) :
  Ascii.compare a b = Lt -> Ascii.compare b c = Lt -> Ascii.compare a c = Lt.
Proof.
  own_variables. unfold Ascii.compare. rewrite !N.compare_lt_iff.
  apply N.lt_trans.
Qed.

Lemma string_compare_lt_trans (s1 s2 s3 : string) :
  String.compare s1 s2 = Lt -> String.compare s2 s3 = Lt ->
  String.compare s1 s3 = Lt.
Proof.
  own_variables. revert s2 s3.
  induction s1 as [|c1 s1 IH]; intros [|c2 s2] [|c3 s3]; simpl;
    try discriminate; trivial.
  destruct (Ascii.compare c1 c2) eqn:E12; try discriminate;
    destruct (Ascii.compare c2 c3) eqn:E23; try discriminate; intros H1 H2.
  - apply Ascii.compare_eq_iff in E12, E23. subst.
    rewrite ascii_compare_refl. eauto.
  - apply Ascii.compare_eq_iff in E12. subst. now rewrite E23.
  - apply Ascii.compare_eq_iff in E23. subst. now rewrite E12.
  - now rewrite (ascii_compare_lt_trans _ _ _ E12 E23).
Qed.

Lemma key_lt_trans (a b c : value) : key_lt a b -> key_lt b c -> key_lt a c.
Proof.
  own_variables. unfold key_lt.
  destruct a as [|p|s|t], b as [|q|s'|t'], c as [|r|s''|t'']; simpl;
    try discriminate; trivial.
  - rewrite <- !Qlt_alt. apply Qlt_trans.
  - apply string_compare_lt_trans.
  - rewrite !Z.compare_lt_iff. apply Z.lt_trans.
Qed.

Lemma key_lt_irrefl (a : value) : ~ key_lt a a.
Proof. own_variables. unfold key_lt. now rewrite value_compare_refl. Qed.

Lemma value_compare_antisym (a b : value) :
  value_compare b a = CompOpp (value_compare a b).
Proof.
  own_variables.
  destruct a as [|p|s|t], b as [|q|s'|t']; simpl; trivial.
  - symmetry. apply Qcompare_antisym.
  - apply String.compare_antisym.
  - apply Z.compare_antisym.
Qed.

Lemma insert_key_strictly_sorted (k : value) (l : list value) :
  StronglySorted key_lt l -> StronglySorted key_lt (insert_key k l).
Proof.
  own_variables.
  induction 1 as [|x r Hs IH Hall]; simpl.
  - repeat constructor.
  - destruct (value_compare k x) eqn:E.
    + now constructor.
    + constructor; [now constructor|]. constructor; [exact E|].
      eapply Forall_impl; [|exact Hall]. intros y Hy.
      now apply (key_lt_trans k x y).
    + constructor; trivial. apply insert_key_all; trivial.
      unfold key_lt. now rewrite value_compare_antisym, E.
Qed.

Lemma sorted_unique_strictly_sorted (l : list value) :
  StronglySorted key_lt (sorted_unique l).
Proof.
  own_variables.
  induction l as [|x r IH]; simpl; [constructor|].
  now apply insert_key_strictly_sorted.
Qed.

Lemma strictly_sorted_NoDup (l : list value) :
  StronglySorted key_lt l -> NoDup l.
Proof.
  own_variables.
  induction 1 as [|x r Hs IH Hall]; constructor; trivial.
  intros Hin. apply (key_lt_irrefl x).
  now apply (proj1 (Forall_forall _ _) Hall).
Qed.

Lemma sorted_unique_not_nan (l : list value) :
  Forall (fun k => k <> VNaN)
         (sorted_unique (filter (fun k => negb (is_nan k)) l)).
Proof.
  own_variables.
  apply sorted_unique_all. apply Forall_forall. intros k Hk.
  apply filter_In in Hk. destruct Hk as [_ Hk]. now destruct k.
Qed.

(** ** The shape of what an aggregate returns *)

Lemma group_of_listed_key (k : value) (st tv : column) :
  List.length st = List.length tv ->
  In k (sorted_unique (filter (fun k => negb (is_nan k)) st)) ->
  group_values k st tv <> [].
Proof.
  own_variables.
  intros Hlen Hk. apply group_values_nonempty; trivial.
  apply sorted_unique_In in Hk. apply filter_In in Hk. tauto.
Qed.

(** X1. On a table that has its three columns, whose timestamps parse
    and in which some reading has a station name, the three aggregates,
    called without a window, return Series over the same keys: the station
    names of the table, each once, in increasing order, none missing; and
    every value of the three Series is a number. *)
Theorem aggregates_list_each_station_once (fname : string) (d : DataFrame)
  (dt st tv dt' : column) :
  tide_table d dt st tv ->
  to_datetime dt = Ok dt' ->
  Exists (fun k => k <> VNaN) st ->
  let r := mkReader fname d in
  exists smax smin smean,
    fst (max_tides None None r) = Ok (AppliedSeries smax)
    /\ fst (min_tides None None r) = Ok (AppliedSeries smin)
    /\ fst (mean_tides None None r) = Ok (AppliedSeries smean)
    /\ map fst smin = map fst smax
    /\ map fst smean = map fst smax
    /\ StronglySorted key_lt (map fst smax)
    /\ NoDup (map fst smax)
    /\ (forall name, In (VStr name) (map fst smax) <-> In (VStr name) st)
    /\ (forall k v, In (k, v) (smax ++ smin ++ smean) ->
          k <> VNaN /\ exists x, v = VFloat x).
Proof.
  own_variables.
  intros Ht Hp Hex r.
  pose proof (aggregate_whole_table series_max fname d dt st tv dt' Ht Hp Hex) as Hmax.
  pose proof (aggregate_whole_table series_min fname d dt st tv dt' Ht Hp Hex) as Hmin.
  pose proof (aggregate_whole_table series_mean fname d dt st tv dt' Ht Hp Hex) as Hmean.
  destruct Ht as (_ & _ & _ & _ & Hlen).
  set (ks := sorted_unique (filter (fun k => negb (is_nan k)) st)) in *.
  do 3 eexists.
  split; [exact Hmax|]. split; [exact Hmin|]. split; [exact Hmean|].
  rewrite !map_map. simpl. rewrite !map_id.
  split; [reflexivity|]. split; [reflexivity|].
  split; [apply sorted_unique_strictly_sorted|].
  split; [apply strictly_sorted_NoDup, sorted_unique_strictly_sorted|].
  split.
  - intros name. split.
    + intros H. apply sorted_unique_In in H. apply filter_In in H. tauto.
    + apply station_key_listed.
  - intros k v Hin.
    assert (Hk : forall (f : list value -> value),
               In (k, v) (map (fun k => (k, f (map zero_filled (group_values k st tv)))) ks) ->
               In k ks /\ v = f (map zero_filled (group_values k st tv))).
    { intros f H. apply in_map_iff in H. destruct H as (k0 & [= -> <-] & H).
      auto. }
    assert (Hnan : In k ks -> k <> VNaN).
    { intros H. exact (proj1 (Forall_forall _ _) (sorted_unique_not_nan st) k H). }
    apply in_app_or in Hin. destruct Hin as [Hin|Hin];
      [|apply in_app_or in Hin; destruct Hin as [Hin|Hin]];
      apply Hk in Hin; destruct Hin as [Hin ->]; split; auto;
      pose proof (group_of_listed_key k st tv Hlen Hin) as Hne.
    + destruct (series_max_spec _ Hne) as (m & -> & _). eauto.
    + destruct (series_min_spec _ Hne) as (m & -> & _). eauto.
    + rewrite (series_mean_spec _ Hne). eauto.
Qed.

(** ** Minimum and maximum of one station *)

(** X2. On a table that has its three columns and whose timestamps
    parse, for every station of the table the value [min_tides] returns is
    at most the value [max_tides] returns, and both are heights of
    readings of that station as the aggregates count them (calls without a
    window). *)
Theorem min_tides_at_most_max_tides (fname : string) (d : DataFrame)
  (dt st tv dt' : column) (s : string) :
  tide_table d dt st tv ->
  to_datetime dt = Ok dt' ->
  In (VStr s) st ->
  let r := mkReader fname d in
  exists smin smax mn mx,
    fst (min_tides None None r) = Ok (AppliedSeries smin)
    /\ fst (max_tides None None r) = Ok (AppliedSeries smax)
    /\ In (VStr s, VFloat mn) smin
    /\ In (VStr s, VFloat mx) smax
    /\ In mn (station_heights s st tv)
    /\ In mx (station_heights s st tv)
    /\ (mn <= mx)%Q.
Proof.
  intros Ht Hp Hs r.
  pose proof (station_named s st Hs) as Hex.
  pose proof (aggregate_whole_table series_max fname d dt st tv dt' Ht Hp Hex) as Hmax.
  pose proof (aggregate_whole_table series_min fname d dt st tv dt' Ht Hp Hex) as Hmin.
  assert (Hne : group_values (VStr s) st tv <> []).
  { destruct Ht as (_ & _ & _ & _ & Hlen). now apply group_values_nonempty. }
  pose proof (station_key_listed s st Hs) as Hk.
  destruct (series_max_spec _ Hne) as (mx & Emx & Hinx & Hmx).
  destruct (series_min_spec _ Hne) as (mn & Emn & Hinn & Hmn).
  do 2 eexists. exists mn, mx.
  split; [exact Hmin|]. split; [exact Hmax|].
  split; [|split; [|split; [exact Hinn|split; [exact Hinx|now apply Hmx]]]].
  - apply in_map_iff. exists (VStr s). split; [|exact Hk]. now rewrite Emn.
  - apply in_map_iff. exists (VStr s). split; [|exact Hk]. now rewrite Emx.
Qed.

(** ** Calling a query twice *)

Lemma bind_ok {A B} (m : M A) (k : A -> M B) (r r' : Reader) (a : A) :
  m r = (Ok a, r') -> bind m k r = k a r'.
Proof. own_variables. unfold bind. now intros ->. Qed.

Lemma bind_err {A B} (m : M A) (k : A -> M B) (r r' : Reader) (e : error) :
  m r = (Err e, r') -> bind m k r = (Err e, r').
Proof. own_variables. unfold bind. now intros ->. Qed.

Lemma pure_run {A} (m : M A) (r : Reader) :
  pure m -> m r = (fst (m r), r).
Proof.
  own_variables. intros H. specialize (H r). destruct (m r); simpl in *.
  now subst.
Qed.

Lemma setitem_existing_same (d : DataFrame) (n : string) (c : column) :
  find_col n d = Some c -> setitem d n c = d.
Proof.
  own_variables.
  induction d as [|[m c0] r IH]; simpl; [discriminate|].
  destruct (String.eqb_spec m n) as [->|Hne].
  - now intros [= ->].
  - intros H. now rewrite IH.
Qed.

Lemma zero_filled_twice (c : column) :
  map zero_filled (map zero_filled c) = map zero_filled c.
Proof.
  rewrite map_map. apply map_ext. intros v.
  now rewrite (zero_filled_coerced v).
Qed.

Lemma heights_coerced_run (r : Reader) :
  heights_coerced r -> coerce_tide_values r = (Ok tt, r).
Proof.
  intros (tv & Hf & Htv). rewrite coerce_tide_values_run, Hf, Htv.
  rewrite (setitem_existing_same _ _ _ Hf). now destruct r.
Qed.

Lemma timestamps_parsed_run (r : Reader) :
  timestamps_parsed r -> parse_date_times r = (Ok tt, r).
Proof.
  intros (dt & Hf & Hdt). rewrite parse_date_times_run, Hf, Hdt.
  rewrite (setitem_existing_same _ _ _ Hf). now destruct r.
Qed.

Lemma coerce_tide_values_settles (r r1 : Reader) (x : result unit) :
  coerce_tide_values r = (x, r1) ->
  match x with
  | Ok _ => heights_coerced r1
  | Err _ => r1 = r
  end.
Proof.
  rewrite coerce_tide_values_run.
  destruct (find_col "tideValue" (data r)) as [tv|]; intros [= <- <-]; trivial.
  exists (map zero_filled tv). simpl. split.
  - apply find_col_setitem_same.
  - apply zero_filled_twice.
Qed.

Lemma parse_date_times_settles (r r1 : Reader) (x : result unit) :
  parse_date_times r = (x, r1) ->
  match x with
  | Ok _ => timestamps_parsed r1
  | Err _ => r1 = r
  end.
Proof.
  rewrite parse_date_times_run.
  destruct (find_col "dateTime" (data r)) as [dt|]; [|now intros [= <- <-]].
  destruct (to_datetime dt) as [dt'|e] eqn:E; intros [= <- <-]; trivial.
  exists dt'. simpl. split.
  - apply find_col_setitem_same.
  - apply to_datetime_parsed. eapply to_datetime_time_column; eauto.
Qed.

Lemma parse_keeps_heights_coerced (r r1 : Reader) (x : result unit) :
  heights_coerced r -> parse_date_times r = (x, r1) -> heights_coerced r1.
Proof.
  intros (tv & Hf & Htv). rewrite parse_date_times_run.
  destruct (find_col "dateTime" (data r)) as [dt|]; [|intros [= <- <-]; now exists tv].
  destruct (to_datetime dt) as [dt'|e]; intros [= <- <-]; [|now exists tv].
  exists tv. simpl. split; trivial.
  now rewrite find_col_setitem_other by discriminate.
Qed.

Lemma station_tides_twice (s : station_arg) (a b : option string) (r : Reader) :
  station_tides s a b (snd (station_tides s a b r)) = station_tides s a b r.
Proof.
  unfold station_tides.
  set (rest := fun _ : unit => bind get_data _).
  assert (Hrest : forall u, pure (rest u)).
  { intros u. unfold rest. auto 10 with pure_db. }
  destruct (parse_date_times r) as [[u|e] r1] eqn:E.
  - pose proof (parse_date_times_settles _ _ _ E) as Hs. simpl in Hs.
    rewrite (bind_ok _ _ _ _ _ E). rewrite (Hrest u r1).
    rewrite (bind_ok _ _ _ _ _ (timestamps_parsed_run _ Hs)).
    now destruct u.
  - pose proof (parse_date_times_settles _ _ _ E) as Hs. simpl in Hs. subst r1.
    rewrite (bind_err _ _ _ _ _ E). simpl. now rewrite (bind_err _ _ _ _ _ E).
Qed.

Lemma station_graph_twice (s : string) (a b : option string) (r : Reader) :
  station_graph s a b (snd (station_graph s a b r)) = station_graph s a b r.
Proof.
  unfold station_graph.
  set (rest := fun _ : unit => bind get_data _).
  assert (Hrest : forall u, pure (rest u)).
  { intros u. unfold rest. auto 10 with pure_db. }
  destruct (coerce_tide_values r) as [[u|e] r1] eqn:E.
  - pose proof (coerce_tide_values_settles _ _ _ E) as Hs. simpl in Hs.
    rewrite (bind_ok _ _ _ _ _ E). rewrite (Hrest u r1).
    rewrite (bind_ok _ _ _ _ _ (heights_coerced_run _ Hs)).
    now destruct u.
  - pose proof (coerce_tide_values_settles _ _ _ E) as Hs. simpl in Hs. subst r1.
    rewrite (bind_err _ _ _ _ _ E). simpl. now rewrite (bind_err _ _ _ _ _ E).
Qed.

Lemma aggregate_twice (f : list value -> value) (a b : option string)
  (r : Reader) :
  aggregate f a b (snd (aggregate f a b r)) = aggregate f a b r.
Proof.
  unfold aggregate.
  set (rest := fun _ : unit => bind get_data _).
  assert (Hrest : forall u, pure (rest u)).
  { intros u. unfold rest. auto 10 with pure_db. }
  destruct (coerce_tide_values r) as [[u|e] r1] eqn:E1.
  - pose proof (coerce_tide_values_settles _ _ _ E1) as H1. simpl in H1.
    rewrite (bind_ok _ _ _ _ _ E1).
    destruct (parse_date_times r1) as [[u'|e'] r2] eqn:E2.
    + pose proof (parse_date_times_settles _ _ _ E2) as H2. simpl in H2.
      pose proof (parse_keeps_heights_coerced _ _ _ H1 E2) as H3.
      rewrite (bind_ok _ _ _ _ _ E2). rewrite (Hrest u' r2).
      rewrite (bind_ok _ _ _ _ _ (heights_coerced_run _ H3)).
      rewrite (bind_ok _ _ _ _ _ (timestamps_parsed_run _ H2)).
      now destruct u'.
    + pose proof (parse_date_times_settles _ _ _ E2) as H2. simpl in H2. subst r2.
      rewrite (bind_err _ _ _ _ _ E2). simpl.
      rewrite (bind_ok _ _ _ _ _ (heights_coerced_run _ H1)).
      now rewrite (bind_err _ _ _ _ _ E2).
  - pose proof (coerce_tide_values_settles _ _ _ E1) as H1. simpl in H1. subst r1.
    rewrite (bind_err _ _ _ _ _ E1). simpl. now rewrite (bind_err _ _ _ _ _ E1).
Qed.

(** X3. A query called a second time with the same arguments, on the
    instance the first call left, returns (or raises) what the first call
    did and leaves the instance as the first call left it: what a query
    writes into the stored table it writes once. *)
Theorem repeated_query_changes_nothing (r : Reader) (a b : option string) :
  (forall s, station_tides s a b (snd (station_tides s a b r))
             = station_tides s a b r)
  /\ max_tides a b (snd (max_tides a b r)) = max_tides a b r
  /\ min_tides a b (snd (min_tides a b r)) = min_tides a b r
  /\ mean_tides a b (snd (mean_tides a b r)) = mean_tides a b r
  /\ (forall s, station_graph s a b (snd (station_graph s a b r))
                = station_graph s a b r).
Proof.
  split; [intros s; apply station_tides_twice|].
  split; [apply aggregate_twice|].
  split; [apply aggregate_twice|].
  split; [apply aggregate_twice|].
  intros s. apply station_graph_twice.
Qed.

(** ** What [add_data] returns *)







(** ** A timestamp that does not parse *)

Lemma to_datetime_fails (dt : column) (s : string) :
  In (VStr s) dt -> parse_datetime s = None ->
  exists s', to_datetime dt = Err (ValueError s')
             /\ parse_datetime s' = None /\ In (VStr s') dt.
Proof.
  unfold to_datetime. intros Hin Hs.
  induction dt as [|v r IH]; simpl in *; [contradiction|].
  destruct (to_datetime_scalar v) as [v'|e] eqn:E.
  - destruct Hin as [->|Hin].
    + simpl in E. rewrite Hs in E. discriminate.
    + destruct (IH Hin) as (s' & -> & Hs' & Hin'). eauto.
  - destruct v as [|q|s0|t]; simpl in E; try discriminate.
    destruct (parse_datetime s0) eqn:P; [discriminate|].
    injection E as <-. eauto.
Qed.

(** X5. When a stored timestamp is text that does not parse, every
    query that parses timestamps raises the parser's ValueError, for any
    arguments.  [station_tides] raises it with the instance untouched;
    [max_tides], [min_tides] and [mean_tides] raise it after line 102 has
    run, so the stored heights are already replaced by their numbers (0
    for a height that is not a number) although the call failed. *)
Theorem unparsable_timestamp_raises (r : Reader) (dt tv : column) (s : string) :
  getitem (data r) "dateTime" = Ok dt ->
  getitem (data r) "tideValue" = Ok tv ->
  In (VStr s) dt ->
  parse_datetime s = None ->
  exists s',
    In (VStr s') dt /\ parse_datetime s' = None
    /\ (forall sn a b, station_tides sn a b r = (Err (ValueError s'), r))
    /\ let r1 := mkReader (filename r)
                   (setitem (data r) "tideValue" (map zero_filled tv)) in
       forall a b,
         max_tides a b r = (Err (ValueError s'), r1)
         /\ min_tides a b r = (Err (ValueError s'), r1)
         /\ mean_tides a b r = (Err (ValueError s'), r1).
Proof.
  intros Hdt Htv Hin Hs.
  destruct (to_datetime_fails dt s Hin Hs) as (s' & Hfail & Hs' & Hin').
  apply getitem_find in Hdt, Htv.
  exists s'. split; [exact Hin'|]. split; [exact Hs'|].
  assert (Hparse : parse_date_times r = (Err (ValueError s'), r)).
  { now rewrite parse_date_times_run, Hdt, Hfail. }
  split.
  - intros sn a b. unfold station_tides. now rewrite (bind_err _ _ _ _ _ Hparse).
  - intros r1.
    assert (Hc : coerce_tide_values r = (Ok tt, r1)).
    { now rewrite coerce_tide_values_run, Htv. }
    assert (Hp1 : parse_date_times r1 = (Err (ValueError s'), r1)).
    { rewrite parse_date_times_run. unfold r1. simpl data.
      rewrite find_col_setitem_other by discriminate. now rewrite Hdt, Hfail. }
    assert (Hagg : forall f a b, aggregate f a b r = (Err (ValueError s'), r1)).
    { intros f a b. unfold aggregate. rewrite (bind_ok _ _ _ _ _ Hc).
      now rewrite (bind_err _ _ _ _ _ Hp1). }
    intros a b. unfold max_tides, min_tides, mean_tides. now rewrite !Hagg.
Qed.

(** ** A query after another *)

Lemma readings_of_map (f : value -> value) (ix cs vs : column) :
  readings_of ix cs (map f vs) =
  map (fun kv => (fst kv, f (snd kv))) (readings_of ix cs vs).
Proof.
  own_variables. unfold readings_of. generalize (combine ix cs). intros l.
  revert vs. induction l as [|k l IH]; intros [|v vs]; simpl; trivial.
  now rewrite IH.
Qed.

(** A reading of a table without repeated pairs is a point of its
    station's Series in the pivoted table. *)
Lemma series_point (ix cs vs : column) (t : Z) (s : string) (h : value) :
  List.length ix = List.length cs -> List.length cs = List.length vs ->
  has_duplicate (combine ix cs) = false ->
  In (VTime t, VStr s, h) (readings_of ix cs vs) ->
  exists series,
    pivot_getitem (pivot_window ix cs vs None None) s = Ok series
    /\ In (VTime t, h) series.
Proof.
  own_variables. intros Hl1 Hl2 Hdup Hin.
  assert (Hrows : map fst (readings_of ix cs vs) = combine ix cs).
  { unfold readings_of. apply map_fst_combine. rewrite length_combine. lia. }
  assert (Hkeys : In (VTime t, VStr s) (combine ix cs)).
  { unfold readings_of in Hin. now apply in_combine_l in Hin. }
  eexists. split.
  - apply pivot_getitem_window. now apply in_combine_r in Hkeys.
  - apply in_map_iff. exists (VTime t). split.
    + f_equal. apply lookup_cell_unique; simpl; trivial. now rewrite Hrows.
    + apply filter_In. split; [|reflexivity].
      apply sorted_unique_exact; [exact I|]. now apply in_combine_l in Hkeys.
Qed.

(** X6. What [station_tides] shows for a reading depends on the queries
    called before it.  On a table that has its three columns, whose
    timestamps parse and in which no (timestamp, station) pair is
    repeated: called first, [station_tides] shows a reading with its
    stored height, text included; called after [max_tides] (whatever that
    call's window and outcome), it shows the same reading with the number
    the height counts as, 0 for a height that is not a number. *)
Theorem station_tides_after_max_tides (sn : station_arg) (fname : string)
  (d : DataFrame) (dt st tv dt' : column) (t : Z) (s : string) (h : value) :
  tide_table d dt st tv ->
  to_datetime dt = Ok dt' ->
  ~ repeated_pair (combine dt' st) ->
  In (VTime t, VStr s, h) (readings_of dt' st tv) ->
  let r := mkReader fname d in
  (exists p series,
     fst (station_tides sn None None r) = Ok p
     /\ pivot_getitem p s = Ok series
     /\ In (VTime t, h) series)
  /\ (forall a b,
        exists p series,
          fst (station_tides sn None None (snd (max_tides a b r))) = Ok p
          /\ pivot_getitem p s = Ok series
          /\ In (VTime t, VFloat (coerced_height h)) series).
Proof.
  intros (Hdt & Hst & Htv & Hl1 & Hl2) Hp Hno Hin r.
  apply has_duplicate_false_iff in Hno.
  pose proof (mapM_length _ _ _ Hp) as Hl0.
  split.
  - destruct (series_point dt' st tv t s h) as (series & Hs & Hpt); trivial;
      try lia.
    exists (pivot_window dt' st tv None None), series. split; [|auto].
    rewrite (station_tides_run sn None None r dt st tv dt'); trivial.
    simpl. now rewrite Hno.
  - intros a b.
    destruct (series_point dt' st (map zero_filled tv) t s
                (VFloat (coerced_height h))) as (series & Hs & Hpt); trivial;
      try lia.
    { rewrite length_map. lia. }
    { rewrite readings_of_map. apply in_map_iff.
      exists (VTime t, VStr s, h). split; trivial. simpl.
      now rewrite zero_filled_coerced. }
    exists (pivot_window dt' st (map zero_filled tv) None None), series.
    split; [|auto].
    unfold max_tides.
    rewrite (aggregate_run series_max a b r dt st tv dt'); trivial.
    cbn [snd].
    rewrite (station_tides_run sn None None _ dt' st (map zero_filled tv) dt').
    + simpl. now rewrite Hno.
    + apply getitem_setitem_same.
    + simpl. rewrite !getitem_setitem_other by discriminate. exact Hst.
    + simpl. rewrite getitem_setitem_other by discriminate.
      apply getitem_setitem_same.
    + apply to_datetime_parsed. eapply to_datetime_time_column; eauto.
Qed.

(** ** The graph of a station *)

Lemma series_point_exact (ix cs vs : column) (k : value) (s : string) (h : value) :
  exact_key k ->
  List.length ix = List.length cs -> List.length cs = List.length vs ->
  has_duplicate (combine ix cs) = false ->
  In (k, VStr s, h) (readings_of ix cs vs) ->
  exists series,
    pivot_getitem (pivot_window ix cs vs None None) s = Ok series
    /\ In (k, h) series.
Proof.
  own_variables. intros Hk Hl1 Hl2 Hdup Hin.
  assert (Hrows : map fst (readings_of ix cs vs) = combine ix cs).
  { unfold readings_of. apply map_fst_combine. rewrite length_combine. lia. }
  assert (Hkeys : In (k, VStr s) (combine ix cs)).
  { unfold readings_of in Hin. now apply in_combine_l in Hin. }
  eexists. split.
  - apply pivot_getitem_window. now apply in_combine_r in Hkeys.
  - apply in_map_iff. exists k. split.
    + f_equal. apply lookup_cell_unique; simpl; trivial. now rewrite Hrows.
    + apply filter_In. split; [|reflexivity].
      apply sorted_unique_exact; trivial. now apply in_combine_l in Hkeys.
Qed.

Lemma lookup_cell_stored (i c : value) (rows : list (value * value * value)) :
  lookup_cell i c rows = VNaN \/ In (lookup_cell i c rows) (map snd rows).
Proof.
  own_variables. induction rows as [|[[i' c'] v] r IH]; simpl; auto.
  destruct (value_eqb i' i && value_eqb c' c); auto.
  destruct IH; auto.
Qed.

Lemma pivot_position_none (k : value) (l : list value) :
  exact_key k -> ~ In k l -> pivot_position k l = None.
Proof.
  own_variables. intros Hk. induction l as [|x r IH]; simpl; trivial.
  intros Hnot. destruct (value_eqb x k) eqn:E.
  - apply value_eqb_exact_r in E; trivial. subst. tauto.
  - rewrite IH; trivial. tauto.
Qed.

(** [station_graph] without a window, run on a table that has its
    columns. *)
Lemma station_graph_run (s : string) (r : Reader) (dt st tv : column) :
  getitem (data r) "dateTime" = Ok dt ->
  getitem (data r) "stationName" = Ok st ->
  getitem (data r) "tideValue" = Ok tv ->
  station_graph s None None r =
  (if has_duplicate (combine dt st)
   then Err (ValueError duplicate_message)
   else match pivot_getitem
                (pivot_window dt st (map zero_filled tv) None None) s with
        | Err e => Err e
        | Ok line => Ok (mkFigure "Time & Date" "Tide Height(m)" s 90 line)
        end,
   mkReader (filename r) (setitem (data r) "tideValue" (map zero_filled tv))).
Proof.
  intros Hdt Hst Htv.
  unfold station_graph, bind at 1. rewrite coerce_tide_values_run.
  rewrite (proj1 (getitem_find _ _ _) Htv).
  unfold bind, get_data, lift, ret. simpl data.
  rewrite (pivot_run _ _ _ _ dt st (map zero_filled tv)).
  - destruct (has_duplicate (combine dt st)); trivial.
    rewrite loc_pivot_window. simpl.
    destruct (pivot_getitem _ s); trivial.
  - now rewrite getitem_setitem_other by discriminate.
  - now rewrite getitem_setitem_other by discriminate.
  - apply getitem_setitem_same.
Qed.

(** X7. On a table that has its three columns, whose stored timestamps
    are text or Timestamps and in which no (timestamp, station) pair is
    repeated, [station_graph] called without a window for a station of
    the table draws one figure: labelled "Time & Date" and
    "Tide Height(m)", titled with the station name, ticks turned by 90,
    with one point per distinct stored timestamp.  Every reading of the
    station is a point, at its timestamp and at the number its height
    counts as (0 for a height that is not a number); every other point
    has no height.  The call leaves the stored heights coerced. *)
Theorem station_graph_plots_coerced_heights (fname : string) (d : DataFrame)
  (dt st tv : column) (s : string) :
  tide_table d dt st tv ->
  Forall exact_key dt ->
  ~ repeated_pair (combine dt st) ->
  In (VStr s) st ->
  exists line,
    station_graph s None None (mkReader fname d)
    = (Ok (mkFigure "Time & Date" "Tide Height(m)" s 90 line),
       mkReader fname (setitem d "tideValue" (map zero_filled tv)))
    /\ map fst line = sorted_unique dt
    /\ (forall k h, In (k, VStr s, h) (readings_of dt st tv) ->
          In (k, VFloat (coerced_height h)) line)
    /\ (forall k v, In (k, v) line -> number_or_missing v).
Proof.
  intros (Hdt & Hst & Htv & Hl1 & Hl2) Hex Hno Hs.
  apply has_duplicate_false_iff in Hno.
  rewrite (station_graph_run s (mkReader fname d) dt st tv); trivial.
  rewrite Hno, (pivot_getitem_window dt st (map zero_filled tv) None None s Hs).
  eexists. split; [reflexivity|].
  assert (Hall : filter (in_window None None) (sorted_unique dt) = sorted_unique dt).
  { apply forallb_filter_id. now apply forallb_forall. }
  rewrite Hall. split; [|split].
  - rewrite map_map. simpl. apply map_id.
  - intros k h Hin. apply in_map_iff. exists k.
    assert (Hk : In k dt).
    { unfold readings_of in Hin. apply in_combine_l in Hin.
      now apply in_combine_l in Hin. }
    assert (Hek : exact_key k) by exact (proj1 (Forall_forall _ _) Hex k Hk).
    split.
    + f_equal. apply lookup_cell_unique; simpl; trivial.
      * unfold readings_of. rewrite map_fst_combine; trivial.
        rewrite length_combine, length_map. lia.
      * rewrite readings_of_map. apply in_map_iff.
        exists (k, VStr s, h). split; trivial. simpl.
        now rewrite zero_filled_coerced.
    + now apply sorted_unique_exact.
  - intros k v Hin. apply in_map_iff in Hin.
    destruct Hin as (i & [= _ <-] & _).
    pose proof (lookup_cell_stored i (VStr s)
                  (readings_of dt st (map zero_filled tv))) as Hv.
    set (v := lookup_cell _ _ _) in *. clearbody v.
    destruct Hv as [->|Hv]; [exact I|].
    rewrite readings_of_map, map_map in Hv. apply in_map_iff in Hv.
    destruct Hv as (x & <- & _). simpl. now rewrite zero_filled_coerced.
Qed.

(** X8. On a table that has its three columns and in which no
    (timestamp, station) pair is repeated, [station_graph] called for a
    name that is no station of the table raises KeyError of that name;
    by then line 200 has run, and the stored heights are coerced.  On the
    table without readings this is so for every name. *)
Theorem station_graph_unknown_station (fname : string) (d : DataFrame)
  (dt st tv : column) (s : string) :
  tide_table d dt st tv ->
  ~ repeated_pair (combine dt st) ->
  ~ In (VStr s) st ->
  station_graph s None None (mkReader fname d)
  = (Err (KeyError s),
     mkReader fname (setitem d "tideValue" (map zero_filled tv))).
Proof.
  intros (Hdt & Hst & Htv & Hl1 & Hl2) Hno Hs.
  apply has_duplicate_false_iff in Hno.
  rewrite (station_graph_run s (mkReader fname d) dt st tv); trivial.
  rewrite Hno. unfold pivot_getitem, pivot_window, pivot_rows. cbn [pcolumns].
  assert (Hpos : pivot_position (VStr s) (sorted_unique st) = None).
  { apply pivot_position_none; [exact I|].
    intros H. apply Hs. now apply sorted_unique_In. }
  now rewrite Hpos.
Qed.

(** ** A window that ends before it starts *)

Lemma filter_none {A} (f : A -> bool) (l : list A) :
  (forall x, In x l -> f x = false) -> filter f l = [].
Proof.
  own_variables. induction l as [|x r IH]; simpl; trivial.
  intros H. rewrite (H x) by now left. apply IH. intros y Hy. apply H.
  now right.
Qed.

(** X9. On a table that has its three columns, in which every reading
    has a timestamp that parses and no (timestamp, station) pair is
    repeated, [station_tides] asked for a window whose end lies before
    its start does not raise: it returns a table without rows that still
    has one column per station. *)
Theorem station_tides_reversed_window (sn : station_arg) (fname : string)
  (d : DataFrame) (dt st tv dt' : column) (a b : string) (lo hi : Z) :
  tide_table d dt st tv ->
  to_datetime dt = Ok dt' ->
  Forall (fun v => v <> VNaN) dt ->
  ~ repeated_pair (combine dt' st) ->
  parse_datetime a = Some lo ->
  period_end b = Some hi ->
  (hi < lo)%Z ->
  fst (station_tides sn (Some a) (Some b) (mkReader fname d))
  = Ok (mkPivot [] (sorted_unique st) []).
Proof.
  intros (Hdt & Hst & Htv & Hl1 & Hl2) Hp Hnan Hno Ha Hb Hlt.
  apply has_duplicate_false_iff in Hno.
  pose proof (to_datetime_is_time _ _ Hp Hnan) as Htime.
  assert (Htime' : Forall (fun v => is_time v = true) (sorted_unique dt')).
  { apply sorted_unique_all. apply Forall_forall. now apply forallb_forall. }
  assert (Hix : forallb is_time (sorted_unique dt') = true).
  { apply forallb_forall. now apply Forall_forall. }
  rewrite (station_tides_run sn (Some a) (Some b) (mkReader fname d) dt st tv dt');
    trivial.
  cbn [fst]. rewrite Hno.
  rewrite (loc_rows_time _ (Some a) (Some b) (Some lo) (Some hi) Hix)
    by (simpl; now rewrite ?Ha, ?Hb).
  unfold pivot_rows. simpl option_map.
  rewrite filter_none; [reflexivity|].
  intros k Hk. pose proof (proj1 (Forall_forall _ _) Htime' k Hk) as Hkt.
  destruct k as [|q|x|t]; try discriminate.
  apply not_true_iff_false. intros Hw.
  apply (in_window_within (Some lo) (Some hi) t) in Hw.
  destruct Hw as [H1 H2]. lia.
Qed.

(** ** What loading and writing produce *)

Lemma frame_of_records_nrows (header : list string)
  (records : list (list string)) :
  header <> [] ->
  nrows (frame_of_records header records) = List.length records.
Proof.
  destruct header as [|h r]; [congruence|]. intros _.
  unfold frame_of_records, range. simpl List.length. rewrite <- cons_seq.
  simpl. now rewrite infer_column_length, length_map.
Qed.

(** X10. [Reader(filename)] on a delimited file with a header returns
    an instance that remembers the file name and holds one column per
    header field and one row per record, in file order: every column has
    as many cells as the file has records, and is a column of numbers or
    a column of text, never a mixture.  When no header field is empty
    and no name occurs twice, the columns are named as the header names
    them. *)
Theorem load_builds_one_row_per_record (fs : filesystem) (fname : string)
  (header : list string) (records : list (list string)) :
  fs fname = Delimited header records ->
  header <> [] ->
  exists r,
    Reader_init fs fname = Ok r
    /\ filename r = fname
    /\ reading_count r = List.length records
    /\ List.length (columns (data r)) = List.length header
    /\ (Forall (fun h => h <> "") header -> NoDup header ->
        columns (data r) = header)
    /\ well_formed (data r)
    /\ (forall name c, getitem (data r) name = Ok c ->
          List.length c = List.length records /\ loaded_column c).
Proof.
  intros Hf Hne. unfold Reader_init, read_csv. rewrite Hf.
  eexists. split; [reflexivity|]. simpl.
  destruct (frame_of_records_columns header records) as [Hlen Hnames].
  pose proof (frame_of_records_nrows header records Hne) as Hn.
  pose proof (frame_of_records_well_formed header records) as Hwf.
  split; [reflexivity|]. split; [exact Hn|]. split; [exact Hlen|].
  split; [intros Hall _; now apply Hnames|]. split; [exact Hwf|].
  intros name c Hc. apply getitem_find in Hc. split.
  - rewrite <- Hn. eapply find_col_length; eauto.
  - eapply frame_of_records_loaded; eauto.
Qed.

Lemma records_of_frame_width (d : DataFrame) :
  Forall (fun rec => List.length rec = S (List.length (columns d)))
         (records_of_frame d).
Proof.
  own_variables. unfold records_of_frame, columns. apply Forall_forall.
  intros rec Hrec. apply in_map_iff in Hrec. destruct Hrec as (i & <- & _).
  simpl. now rewrite !length_map.
Qed.

(** X11. [write_data] never changes the instance, whatever the stored
    table.  To a path that cannot be written it raises OSError, and no
    file system comes out of the call: nothing is written.  To a path that
    can be written it returns: it replaces the file at that path and no
    other file; the file written has a header of one empty field followed
    by the column names, and one record per stored row, each as wide as
    the header; [Reader] on that path returns an instance with as many
    readings as the stored table and one column more. *)
Theorem write_data_writes_a_loadable_file (fs : filesystem) (fname : string)
  (r : Reader) :
  snd (write_data fs fname r) = r
  /\ (writable fname = false ->
      fst (write_data fs fname r) = Err (OSError fname))
  /\ (writable fname = true ->
      exists fs' records r',
        fst (write_data fs fname r) = Ok fs'
        /\ (forall path, path <> fname -> fs' path = fs path)
        /\ fs' fname = Delimited ("" :: columns (data r)) records
        /\ List.length records = reading_count r
        /\ Forall (fun rec => List.length rec = S (List.length (columns (data r))))
                  records
        /\ Reader_init fs' fname = Ok r'
        /\ reading_count r' = reading_count r
        /\ List.length (columns (data r')) = S (List.length (columns (data r)))).
Proof.
  unfold write_data, bind, get_data, lift. cbn [fst snd].
  split; [reflexivity|]. split.
  { intros Hw. unfold to_csv. now rewrite Hw. }
  intros Hw. pose proof (to_csv_writable fs (data r) fname Hw) as Hcsv.
  rewrite Hcsv.
  eexists. exists (records_of_frame (data r)).
  exists (mkReader fname
            (frame_of_records ("" :: columns (data r)) (records_of_frame (data r)))).
  split; [reflexivity|]. split.
  { intros path Hne. unfold write_file.
    destruct (String.eqb_spec path fname); [contradiction|reflexivity]. }
  split.
  { unfold write_file. now rewrite String.eqb_refl. }
  split.
  { unfold records_of_frame, range. now rewrite length_map, length_seq. }
  split; [apply records_of_frame_width|].
  split; [unfold Reader_init; now rewrite (read_back _ _ _ _ Hcsv)|].
  split; [apply nrows_read_back|]. simpl data.
  now rewrite (proj1 (frame_of_records_columns _ _)).
Qed.

(** ** The script *)

Lemma string_of_nat_not_message (n : nat) :
  string_of_nat n <> "No data loaded.".
Proof.
  own_variables. unfold string_of_nat.
  destruct (Nat.to_uint n); simpl; discriminate.
Qed.

(** X12. Run as a script, the module prints one line, the number of
    records of [tideReadings.csv], whenever that file is a delimited file
    with a header, whatever its columns.  When the file is missing the
    script ends with FileNotFoundError: the handler for TypeError does
    not catch it, and the line "No data loaded." is never printed. *)
Theorem main_prints_the_row_count (fs : filesystem) :
  (forall header records,
     fs "tideReadings.csv" = Delimited header records -> header <> [] ->
     main fs = Ok [string_of_nat (List.length records)])
  /\ (fs "tideReadings.csv" = Missing ->
      main fs = Err (FileNotFoundError "tideReadings.csv"))
  /\ main fs <> Ok ["No data loaded."].
Proof.
  unfold main, Reader_init, read_csv. split; [|split].
  - intros header records Hf Hne. rewrite Hf. simpl.
    unfold reading_count. simpl data.
    now rewrite (frame_of_records_nrows header records Hne).
  - now intros ->.
  - destruct (fs "tideReadings.csv"); simpl; try discriminate.
    intros [= H]. now apply string_of_nat_not_message in H.
Qed.

(** ** The shape of the pivoted table *)

Lemma lookup_cell_absent (i c : value) (rows : list (value * value * value)) :
  exact_key i -> exact_key c ->
  (forall v, ~ In (i, c, v) rows) -> lookup_cell i c rows = VNaN.
Proof.
  own_variables. intros Hi Hc Hno.
  destruct (lookup_cell i c rows) eqn:E; trivial; exfalso;
    apply (Hno (lookup_cell i c rows));
    apply lookup_cell_In; trivial; rewrite E; discriminate.
Qed.

(** X13. On a table that has its three columns, whose timestamps parse
    and in which no (timestamp, station) pair is repeated,
    [station_tides] without a window returns a table with one row for
    every timestamp at which any station was read; the Series of a
    station has a point at each of them, and at a timestamp where that
    station has no reading the point has no height. *)
Theorem station_tides_fills_gaps (sn : station_arg) (fname : string)
  (d : DataFrame) (dt st tv dt' : column) (t : Z) (s : string) :
  tide_table d dt st tv ->
  to_datetime dt = Ok dt' ->
  ~ repeated_pair (combine dt' st) ->
  In (VTime t) dt' ->
  In (VStr s) st ->
  (forall h, ~ In (VTime t, VStr s, h) (readings_of dt' st tv)) ->
  exists p series,
    fst (station_tides sn None None (mkReader fname d)) = Ok p
    /\ pindex p = sorted_unique dt'
    /\ (forall k, In k (pindex p) <-> In k dt')
    /\ pivot_getitem p s = Ok series
    /\ map fst series = pindex p
    /\ In (VTime t, VNaN) series.
Proof.
  intros (Hdt & Hst & Htv & Hl1 & Hl2) Hp Hno Ht Hs Habs.
  apply has_duplicate_false_iff in Hno.
  assert (Hall : filter (in_window None None) (sorted_unique dt') = sorted_unique dt').
  { apply forallb_filter_id. now apply forallb_forall. }
  assert (Hexact : Forall exact_key dt').
  { pose proof (to_datetime_time_column _ _ Hp) as Htc.
    eapply Forall_impl; [|exact Htc]. intros v. now destruct v. }
  exists (pivot_window dt' st tv None None). eexists.
  split; [|split; [|split; [|split; [apply pivot_getitem_window; exact Hs|]]]].
  - rewrite (station_tides_run sn None None (mkReader fname d) dt st tv dt');
      trivial.
    simpl. now rewrite Hno.
  - simpl. exact Hall.
  - intros k. simpl. rewrite Hall. split; [apply sorted_unique_In|].
    intros Hk. apply sorted_unique_exact; trivial.
    exact (proj1 (Forall_forall _ _) Hexact k Hk).
  - rewrite Hall. split.
    + rewrite map_map. simpl. rewrite map_id. simpl. now rewrite Hall.
    + apply in_map_iff. exists (VTime t). split.
      * f_equal. apply lookup_cell_absent; simpl; trivial.
      * now apply sorted_unique_exact.
Qed.

(** X14. On a table whose station names are as [read_csv] makes a
    column (numbers or text, some perhaps missing), every table
    [station_tides] returns, for any arguments, is rectangular and
    ordered: its row labels are in strictly increasing order, a missing
    one first; so are its column labels; no label occurs twice; it has one
    row of cells per row label and in every row one cell per column. *)
Theorem station_tides_returns_ordered_table (sn : station_arg)
  (a b : option string) (r : Reader) (st : column) (p : PivotFrame) :
  getitem (data r) "stationName" = Ok st ->
  loaded_column st ->
  fst (station_tides sn a b r) = Ok p ->
  StronglySorted key_lt (pindex p)
  /\ StronglySorted key_lt (pcolumns p)
  /\ Forall time_cell (pindex p)
  /\ pcolumns p = sorted_unique st
  /\ NoDup (pindex p) /\ NoDup (pcolumns p)
  /\ List.length (pcells p) = List.length (pindex p)
  /\ Forall (fun row => List.length row = List.length (pcolumns p)) (pcells p).
Proof.
  intros Hst _ H. apply station_tides_ok in H.
  destruct H as (dt & st' & tv & dt' & keep & _ & Hst' & _ & Hp & _ & ->).
  rewrite Hst in Hst'. injection Hst' as <-.
  unfold pivot_rows. simpl.
  assert (Hi : StronglySorted key_lt (filter keep (sorted_unique dt'))).
  { apply filter_sorted. apply sorted_unique_strictly_sorted. }
  pose proof (sorted_unique_strictly_sorted st) as Hc.
  assert (Ht : Forall time_cell (filter keep (sorted_unique dt'))).
  { apply Forall_forall. intros k Hk. apply filter_In in Hk.
    destruct Hk as [Hk _]. apply sorted_unique_In in Hk.
    exact (proj1 (Forall_forall _ _) (to_datetime_time_column _ _ Hp) k Hk). }
  split; [exact Hi|]. split; [exact Hc|]. split; [exact Ht|].
  split; [reflexivity|].
  split; [now apply strictly_sorted_NoDup|].
  split; [now apply strictly_sorted_NoDup|].
  split; [apply length_map|].
  apply Forall_forall. intros row Hrow. apply in_map_iff in Hrow.
  destruct Hrow as (i & <- & _). apply length_map.
Qed.


(** ** What each query writes *)

Lemma parse_date_times_keeps (r : Reader) (name : string) :
  name <> "dateTime" ->
  find_col name (data (snd (parse_date_times r))) = find_col name (data r).
Proof.
  intros Hne. rewrite parse_date_times_run.
  destruct (find_col "dateTime" (data r)); trivial.
  destruct (to_datetime c); trivial. simpl.
  now apply find_col_setitem_other.
Qed.

Lemma coerce_tide_values_keeps (r : Reader) (name : string) :
  name <> "tideValue" ->
  find_col name (data (snd (coerce_tide_values r))) = find_col name (data r).
Proof.
  intros Hne. rewrite coerce_tide_values_run.
  destruct (find_col "tideValue" (data r)); trivial. simpl.
  now apply find_col_setitem_other.
Qed.

(** X16. Whatever its arguments and whether it returns or raises,
    [station_tides] leaves every stored column but [dateTime] as it was,
    the heights included, and [station_graph] leaves every stored column
    but [tideValue] as it was, the timestamps included. *)
Theorem queries_write_one_column (r : Reader) (a b : option string)
  (name : string) :
  (forall sn, name <> "dateTime" ->
     find_col name (data (snd (station_tides sn a b r)))
     = find_col name (data r))
  /\ (forall s, name <> "tideValue" ->
        find_col name (data (snd (station_graph s a b r)))
        = find_col name (data r)).
Proof.
  split.
  - intros sn Hne. rewrite after_station_tides.
    now apply parse_date_times_keeps.
  - intros s Hne. rewrite after_station_graph.
    now apply coerce_tide_values_keeps.
Qed.

(** X17. An aggregate that returns has left the stored table with
    every height a number and every timestamp a Timestamp or missing;
    this holds for any window and any stored table. *)
Theorem aggregate_leaves_numbers_and_timestamps (a b : option string)
  (r : Reader) (s : Applied) :
  fst (max_tides a b r) = Ok s
  \/ fst (min_tides a b r) = Ok s
  \/ fst (mean_tides a b r) = Ok s ->
  exists tv dt,
    getitem (data (snd (max_tides a b r))) "tideValue" = Ok tv
    /\ getitem (data (snd (max_tides a b r))) "dateTime" = Ok dt
    /\ snd (min_tides a b r) = snd (max_tides a b r)
    /\ snd (mean_tides a b r) = snd (max_tides a b r)
    /\ Forall (fun v => exists q, v = VFloat q) tv
    /\ time_column dt.
Proof.
  intros H.
  assert (Hstate : forall f, snd (aggregate f a b r) = snd (aggregate series_max a b r)).
  { intros f. now rewrite !after_aggregate. }
  assert (Hok : exists f s', fst (aggregate f a b r) = Ok s').
  { destruct H as [H|[H|H]]; eauto. }
  destruct Hok as (f & s' & Hf).
  unfold max_tides, min_tides, mean_tides.
  rewrite (Hstate series_min), (Hstate series_mean).
  rewrite after_aggregate.
  revert Hf. unfold aggregate.
  destruct (coerce_tide_values r) as [[u|e] r1] eqn:E1.
  2:{ rewrite (bind_err _ _ _ _ _ E1). discriminate. }
  rewrite (bind_ok _ _ _ _ _ E1).
  destruct (parse_date_times r1) as [[u'|e'] r2] eqn:E2.
  2:{ rewrite (bind_err _ _ _ _ _ E2). discriminate. }
  intros _. cbn [snd].
  pose proof (coerce_tide_values_settles _ _ _ E1) as H1. simpl in H1.
  pose proof (parse_keeps_heights_coerced _ _ _ H1 E2) as (tv & Htv & Hz).
  pose proof (parse_date_times_settles _ _ _ E2) as (dt & Hdt & Hp). 
  exists tv, dt. unfold getitem. rewrite Htv, Hdt.
  repeat split; trivial.
  - rewrite <- Hz. apply Forall_forall. intros v Hv. apply in_map_iff in Hv.
    destruct Hv as (x & <- & _). rewrite zero_filled_coerced. eauto.
  - eapply to_datetime_time_column; eauto.
Qed.

End Pandas.

(** * The model on concrete data *)

Example parse_decimal_fraction : parse_decimal "0.937" = Some (937 # 1000).
Proof. reflexivity. Qed.

Example parse_decimal_negative : parse_decimal "-2.231" = Some (-2231 # 1000).
Proof. reflexivity. Qed.

Example parse_decimal_text : parse_decimal "bad" = None.
Proof. reflexivity. Qed.

Example render_decimal_back :
  parse_decimal (render_decimal (-2231 # 1000)) = Some (-2231 # 1000).
Proof. reflexivity. Qed.

Example iso_key_full : iso_key two_am = Some 20210920020000%Z.
Proof. reflexivity. Qed.

Example iso_key_text : iso_key "yesterday" = None.
Proof. reflexivity. Qed.

Example render_iso_back :
  iso_key (render_iso 20210920020000) = Some 20210920020000%Z.
Proof. reflexivity. Qed.

(** The scenario of the docstring of [station_tides]: both stations at
    their common timestamp. *)
Example station_tides_newlyn_bangor :
  fst (station_tides iso_key iso_key keep_every_label
         (Stations ["Newlyn"; "Bangor"]) None None
         (mkReader "tideReadings.csv" newlyn_bangor))
  = Ok (mkPivot [VTime 20210920020000]
                [VStr "Bangor"; VStr "Newlyn"]
                [[VFloat (6 # 5); VFloat (937 # 1000)]]).
Proof. reflexivity. Qed.

(** C1. The window of an aggregate is not applied.  On a table with one
    station read at 02:00 (height 1) and at 03:00 (height 5), the window
    [02:00, 02:00] holds the first reading only, so its maximum is 1.
    [max_tides] slices the integer index of the table, not its
    timestamps, and then aggregates the whole table: whatever the slice
    does, the call raises or returns 5, never 1; the same holds for every
    window; with none asked for the call returns 5, and so it does for
    every window when the slice returns. *)
Theorem max_tides_ignores_window
  (label_slice : DataFrame -> option string -> option string -> result DataFrame) :
  let r := mkReader "tideReadings.csv" two_readings in
  let call := max_tides parse_decimal iso_key label_slice in
  ((exists e, fst (call (Some two_am) (Some two_am) r) = Err e)
   \/ fst (call (Some two_am) (Some two_am) r)
      = Ok (AppliedSeries [(VStr "A", VFloat 5)]))
  /\ (forall a b, fst (call a b r) <> Ok (AppliedSeries [(VStr "A", VFloat 1)]))
  /\ fst (call None None r) = Ok (AppliedSeries [(VStr "A", VFloat 5)])
  /\ ((forall df a b, is_ok (label_slice df a b) = true) ->
      forall a b, fst (call a b r) = Ok (AppliedSeries [(VStr "A", VFloat 5)])).
Proof.
  intros r call.
  assert (Hnone : fst (call None None r) = Ok (AppliedSeries [(VStr "A", VFloat 5)]))
    by reflexivity.
  assert (Hany : forall a b s, fst (call a b r) = Ok s ->
                               s = AppliedSeries [(VStr "A", VFloat 5)]).
  { intros a b s H. apply aggregate_window_unused in H.
    unfold call, max_tides in Hnone. rewrite Hnone in H. now injection H. }
  split; [|split; [|split]].
  - destruct (fst (call (Some two_am) (Some two_am) r)) as [s|e] eqn:E.
    + right. now rewrite (Hany _ _ _ E).
    + left. now exists e.
  - intros a b H. apply Hany in H. discriminate.
  - exact Hnone.
  - intros Hret a b. unfold call, max_tides.
    rewrite (aggregate_run parse_decimal iso_key label_slice series_max a b r
               [VStr two_am; VStr three_am] [VStr "A"; VStr "A"]
               [VFloat 1; VFloat 5]
               [VTime 20210920020000; VTime 20210920030000]
               eq_refl eq_refl eq_refl eq_refl).
    cbn [fst]. specialize (Hret
      (setitem (setitem (data r) "tideValue"
                  (map (zero_filled parse_decimal) [VFloat 1; VFloat 5]))
               "dateTime" [VTime 20210920020000; VTime 20210920030000]) a b).
    unfold loc_range.
    destruct a, b; trivial;
      (destruct (label_slice _ _ _); [reflexivity|discriminate Hret]).
Qed.

(** The same table under [min_tides] and [mean_tides]: with no window
    the whole table is aggregated. *)
Example min_mean_tides_two_readings :
  let r := mkReader "tideReadings.csv" two_readings in
  fst (min_tides parse_decimal iso_key slice_every_row None None r)
  = Ok (AppliedSeries [(VStr "A", VFloat 1)])
  /\ fst (mean_tides parse_decimal iso_key slice_every_row None None r)
     = Ok (AppliedSeries [(VStr "A", VFloat (6 # 2))]).
Proof. split; reflexivity. Qed.

(** C2 at a concrete call, the one of the docstring of [add_data]: the
    count of the instance stays 2 where the docstring expects 3. *)
Example add_data_count_unchanged :
  let r := mkReader "tideReadings.csv" newlyn_bangor in
  let r' := snd (add_data two_am "Newlyn" (1465 # 1000) r) in
  reading_count r = 2%nat /\ reading_count r' = 2%nat
  /\ fst (max_tides parse_decimal iso_key slice_every_row None None r')
     = Ok (AppliedSeries [(VStr "Bangor", VFloat (6 # 5));
                          (VStr "Newlyn", VFloat (937 # 1000))]).
Proof. repeat split. Qed.

(** Load, export, load again: the second instance holds the table of
    the first after a column of row numbers. *)
Example load_export_load :
  exists r fs' r',
    Reader_init parse_decimal disk_with_readings "tideReadings.csv" = Ok r
    /\ write_data render_decimal render_iso in_working_directory
         disk_with_readings "copy.csv" r
       = (Ok fs', r)
    /\ Reader_init parse_decimal fs' "copy.csv" = Ok r'
    /\ data r = [("dateTime", [VStr two_am; VStr two_am]);
                 ("stationName", [VStr "Newlyn"; VStr "Bangor"]);
                 ("tideValue", [VStr "0.937"; VStr "bad"])]
    /\ data r' = ("Unnamed: 0", [VFloat 0; VFloat 1]) :: data r.
Proof.
  eexists. eexists. eexists.
  split; [reflexivity|]. split; [reflexivity|]. split; [reflexivity|].
  split; reflexivity.
Qed.

(** C3 as first stated fails: [max_tides] rewrites a stored height that
    is not a number to 0, and the stored timestamps to Timestamps. *)
Lemma max_tides_rewrites_stored_cells :
  getitem (data (mkReader "tideReadings.csv" bad_height)) "tideValue"
  = Ok [VStr "1.0"; VStr "bad"; VStr "3.0"]
  /\ getitem
       (data (after_query parse_decimal iso_key iso_key slice_every_row keep_every_label
                (QMaxTides None None)
                (mkReader "tideReadings.csv" bad_height))) "tideValue"
     = Ok [VFloat 1; VFloat 0; VFloat 3]
  /\ data (after_query parse_decimal iso_key iso_key slice_every_row keep_every_label
             (QMaxTides None None)
             (mkReader "tideReadings.csv" bad_height))
     <> data (mkReader "tideReadings.csv" bad_height).
Proof.
  split; [reflexivity|]. split; [reflexivity|]. discriminate.
Qed.



(** C8 as first stated fails: a readable file without the [tideValue]
    column loads. *)
Lemma load_accepts_missing_column :
  lacks_required_column (disk_without_heights "tides.csv")
  /\ disk_without_heights "tides.csv" <> Missing
  /\ disk_without_heights "tides.csv" <> Unreadable
  /\ is_ok (Reader_init parse_decimal disk_without_heights "tides.csv") = true.
Proof.
  split; [|repeat split; discriminate].
  exists "tideValue". split; simpl; [auto|].
  intros [H|[H|[]]]; discriminate.
Qed.

(** * The theorems at concrete tables *)

(** C5 on the table of the specification: heights 1.0, "bad", 3.0 for
    station X give maximum 3, minimum 0 and mean 4/3. *)
Lemma non_numeric_heights_count_as_zero_witness :
  (exists smax mx,
     fst (max_tides parse_decimal iso_key slice_every_row None None
            (mkReader "tideReadings.csv" bad_height)) = Ok (AppliedSeries smax)
     /\ In (VStr "X", VFloat mx) smax
     /\ is_maximum mx [1; 0; 3]%Q)
  /\ fst (max_tides parse_decimal iso_key slice_every_row None None
            (mkReader "tideReadings.csv" bad_height))
     = Ok (AppliedSeries [(VStr "X", VFloat 3)])
  /\ fst (min_tides parse_decimal iso_key slice_every_row None None
            (mkReader "tideReadings.csv" bad_height))
     = Ok (AppliedSeries [(VStr "X", VFloat 0)])
  /\ fst (mean_tides parse_decimal iso_key slice_every_row None None
            (mkReader "tideReadings.csv" bad_height))
     = Ok (AppliedSeries [(VStr "X", VFloat (4 # 3))]).
Proof.
  split; [|repeat split; reflexivity].
  refine (proj1 (proj2 (proj2 (proj2
    (non_numeric_heights_count_as_zero parse_decimal iso_key slice_every_row
       "tideReadings.csv" bad_height
       [VStr two_am; VStr three_am; VStr four_am]
       [VStr "X"; VStr "X"; VStr "X"]
       [VStr "1.0"; VStr "bad"; VStr "3.0"]
       [VTime 20210920020000; VTime 20210920030000; VTime 20210920040000]
       "X" _ _ _))))).
  - repeat split; reflexivity.
  - reflexivity.
  - simpl. auto.
Defined.


(** C4 on the two stations read at the same time. *)
Lemma station_tides_ignores_station_name_witness :
  station_tides iso_key iso_key keep_every_label (Station "Newlyn") None None
    (mkReader "tideReadings.csv" newlyn_bangor)
  = station_tides iso_key iso_key keep_every_label
      (Stations ["Newlyn"; "Bangor"]) None None
      (mkReader "tideReadings.csv" newlyn_bangor)
  /\ exists st,
       getitem newlyn_bangor "stationName" = Ok st
       /\ [VStr "Bangor"; VStr "Newlyn"] = sorted_unique st
       /\ forall name, In (VStr name) [VStr "Bangor"; VStr "Newlyn"]
                       <-> In (VStr name) st.
Proof.
  destruct (station_tides_ignores_station_name iso_key iso_key keep_every_label
              (Station "Newlyn") (Stations ["Newlyn"; "Bangor"]) None None
              (mkReader "tideReadings.csv" newlyn_bangor)) as [H1 H2].
  split; [exact H1|].
  exact (H2 (mkPivot [VTime 20210920020000]
                     [VStr "Bangor"; VStr "Newlyn"]
                     [[VFloat (6 # 5); VFloat (937 # 1000)]]) eq_refl).
Defined.

(** C7 on a station read twice at the same time, and on two stations
    read once each. *)
Lemma duplicate_pair_raises_in_pivot_witness :
  (forall a b,
     fst (station_tides iso_key iso_key keep_every_label (Station "Newlyn") a b
            (mkReader "tideReadings.csv" repeated_reading))
     = Err (ValueError duplicate_message))
  /\ exists p,
       fst (station_tides iso_key iso_key keep_every_label (Station "Newlyn") None None
              (mkReader "tideReadings.csv" newlyn_bangor)) = Ok p.
Proof.
  split.
  - refine (proj2 (proj1
      (duplicate_pair_raises_in_pivot iso_key iso_key keep_every_label (Station "Newlyn")
         (mkReader "tideReadings.csv" repeated_reading)
         [VStr two_am; VStr two_am] [VStr "Newlyn"; VStr "Newlyn"]
         [VFloat (937 # 1000); VFloat (6 # 5)]
         [VTime 20210920020000; VTime 20210920020000]
         eq_refl eq_refl eq_refl eq_refl) _)).
    apply has_duplicate_iff. reflexivity.
  - destruct (proj2
      (duplicate_pair_raises_in_pivot iso_key iso_key keep_every_label (Station "Newlyn")
         (mkReader "tideReadings.csv" newlyn_bangor)
         [VStr two_am; VStr two_am] [VStr "Newlyn"; VStr "Bangor"]
         [VFloat (937 # 1000); VFloat (6 # 5)]
         [VTime 20210920020000; VTime 20210920020000]
         eq_refl eq_refl eq_refl eq_refl)) as (p & _ & Hp).
    + apply has_duplicate_false_iff. reflexivity.
    + exists p. exact Hp.
Defined.

(** C6 on a station read at 02:00 and at 03:00, asked for the window
    [02:00, 02:00]: the Series of the station is the first reading
    alone. *)
Lemma station_series_within_window_witness :
  exists p series,
    fst (station_tides iso_key iso_key keep_every_label (Station "A")
           (Some two_am) (Some two_am)
           (mkReader "tideReadings.csv" two_readings)) = Ok p
    /\ pivot_getitem p "A" = Ok series
    /\ series = [(VTime 20210920020000, VFloat 1)]
    /\ forall k h, In (k, h) series ->
         exists t, k = VTime t
                   /\ within (Some 20210920020000%Z) (Some 20210920020000%Z) t.
Proof.
  destruct (station_series_within_window iso_key iso_key keep_every_label (Station "A") "A"
              (Some two_am) (Some two_am)
              (Some 20210920020000%Z) (Some 20210920020000%Z)
              "tideReadings.csv" two_readings
              [VStr two_am; VStr three_am] [VStr "A"; VStr "A"]
              [VFloat 1; VFloat 5]
              [VTime 20210920020000; VTime 20210920030000])
    as (p & series & Hp & Hs & _ & Hin & _).
  - repeat split; reflexivity.
  - reflexivity.
  - repeat constructor; discriminate.
  - apply has_duplicate_false_iff. reflexivity.
  - reflexivity.
  - reflexivity.
  - simpl. auto.
  - exists p, series. split; [exact Hp|]. split; [exact Hs|].
    split; [|exact Hin].
    vm_compute in Hp. injection Hp as <-.
    vm_compute in Hs. now injection Hs as <-.
Defined.

(** C8 on a disk whose only file has no [tideValue] column: the file
    loads, and every query on the instance raises. *)
Lemma load_fails_iff_read_csv_fails_witness :
  is_ok (Reader_init parse_decimal empty_disk "tides.csv") = false
  /\ exists r,
       Reader_init parse_decimal disk_without_heights "tides.csv" = Ok r
       /\ forall q, query_returns parse_decimal iso_key iso_key
                      slice_every_row keep_every_label q r = false.
Proof.
  split.
  - apply (proj1 (load_fails_iff_read_csv_fails parse_decimal iso_key iso_key
                    slice_every_row keep_every_label empty_disk "tides.csv")).
    left. reflexivity.
  - destruct (proj2 (load_fails_iff_read_csv_fails parse_decimal iso_key iso_key
                       slice_every_row keep_every_label
                       disk_without_heights "tides.csv")
                _ _ eq_refl) as (r & Hr & _ & _ & Hq).
    exists r. split; [exact Hr|].
    apply (Hq "tideValue").
    + simpl. auto.
    + simpl. intros [H|[H|[]]]; discriminate.
Defined.


(** * The further properties at concrete tables *)

(** X1 on two stations read at the same time. *)
Lemma aggregates_list_each_station_once_witness :
  exists smax smin smean,
    fst (max_tides parse_decimal iso_key slice_every_row None None
           (mkReader "tideReadings.csv" newlyn_bangor)) = Ok (AppliedSeries smax)
    /\ fst (min_tides parse_decimal iso_key slice_every_row None None
              (mkReader "tideReadings.csv" newlyn_bangor)) = Ok (AppliedSeries smin)
    /\ fst (mean_tides parse_decimal iso_key slice_every_row None None
              (mkReader "tideReadings.csv" newlyn_bangor)) = Ok (AppliedSeries smean)
    /\ map fst smax = [VStr "Bangor"; VStr "Newlyn"]
    /\ map fst smin = map fst smax
    /\ map fst smean = map fst smax
    /\ NoDup (map fst smax).
Proof.
  destruct (aggregates_list_each_station_once parse_decimal iso_key slice_every_row
              "tideReadings.csv" newlyn_bangor
              [VStr two_am; VStr two_am] [VStr "Newlyn"; VStr "Bangor"]
              [VFloat (937 # 1000); VFloat (6 # 5)]
              [VTime 20210920020000; VTime 20210920020000])
    as (smax & smin & smean & Hmax & Hmin & Hmean & E1 & E2 & _ & Hnd & _).
  - repeat split; reflexivity.
  - reflexivity.
  - left. discriminate.
  - exists smax, smin, smean. repeat split; trivial.
    vm_compute in Hmax. now injection Hmax as <-.
Defined.

(** X2 on the heights 1.0, "bad", 3.0 of one station: 0 and 3. *)
Lemma min_tides_at_most_max_tides_witness :
  exists smin smax mn mx,
    fst (min_tides parse_decimal iso_key slice_every_row None None
           (mkReader "tideReadings.csv" bad_height)) = Ok (AppliedSeries smin)
    /\ fst (max_tides parse_decimal iso_key slice_every_row None None
              (mkReader "tideReadings.csv" bad_height)) = Ok (AppliedSeries smax)
    /\ In (VStr "X", VFloat mn) smin
    /\ In (VStr "X", VFloat mx) smax
    /\ In mn [1; 0; 3]%Q
    /\ In mx [1; 0; 3]%Q
    /\ (mn <= mx)%Q.
Proof.
  refine (min_tides_at_most_max_tides parse_decimal iso_key slice_every_row
            "tideReadings.csv" bad_height
            [VStr two_am; VStr three_am; VStr four_am]
            [VStr "X"; VStr "X"; VStr "X"]
            [VStr "1.0"; VStr "bad"; VStr "3.0"]
            [VTime 20210920020000; VTime 20210920030000; VTime 20210920040000]
            "X" _ _ _).
  - repeat split; reflexivity.
  - reflexivity.
  - simpl. auto.
Defined.

(** X5 on a table whose second timestamp reads "yesterday". *)
Lemma unparsable_timestamp_raises_witness :
  station_tides iso_key iso_key keep_every_label (Station "Newlyn") None None
    (mkReader "tideReadings.csv" bad_timestamp)
  = (Err (ValueError "yesterday"), mkReader "tideReadings.csv" bad_timestamp)
  /\ exists s',
       max_tides parse_decimal iso_key slice_every_row None None
         (mkReader "tideReadings.csv" bad_timestamp)
       = (Err (ValueError s'),
          mkReader "tideReadings.csv"
            (setitem bad_timestamp "tideValue" [VFloat 1; VFloat 0])).
Proof.
  destruct (unparsable_timestamp_raises parse_decimal iso_key iso_key
              slice_every_row keep_every_label
              (mkReader "tideReadings.csv" bad_timestamp)
              [VStr two_am; VStr "yesterday"] [VStr "1.0"; VStr "bad"]
              "yesterday")
    as (s' & _ & _ & _ & Hagg).
  - reflexivity.
  - reflexivity.
  - simpl. auto.
  - reflexivity.
  - split; [reflexivity|]. exists s'. exact (proj1 (Hagg None None)).
Defined.

(** X6 on two stations read an hour apart, the second with the height
    "bad": text before [max_tides], 0 after. *)
Lemma station_tides_after_max_tides_witness :
  (exists p series,
     fst (station_tides iso_key iso_key keep_every_label (Station "Bangor") None None
            (mkReader "tideReadings.csv" staggered)) = Ok p
     /\ pivot_getitem p "Bangor" = Ok series
     /\ In (VTime 20210920030000, VStr "bad") series)
  /\ exists p series,
       fst (station_tides iso_key iso_key keep_every_label (Station "Bangor") None None
              (snd (max_tides parse_decimal iso_key slice_every_row None None
                      (mkReader "tideReadings.csv" staggered)))) = Ok p
       /\ pivot_getitem p "Bangor" = Ok series
       /\ In (VTime 20210920030000, VFloat 0) series.
Proof.
  destruct (station_tides_after_max_tides parse_decimal iso_key iso_key
              slice_every_row keep_every_label (Station "Bangor") "tideReadings.csv" staggered
              [VStr two_am; VStr three_am] [VStr "Newlyn"; VStr "Bangor"]
              [VFloat (937 # 1000); VStr "bad"]
              [VTime 20210920020000; VTime 20210920030000]
              20210920030000%Z "Bangor" (VStr "bad"))
    as [Hbefore Hafter].
  - repeat split; reflexivity.
  - reflexivity.
  - apply has_duplicate_false_iff. reflexivity.
  - simpl. auto.
  - split; [exact Hbefore|]. exact (Hafter None None).
Defined.

(** X7 on the heights 1.0, "bad", 3.0 of station X. *)
Lemma station_graph_plots_coerced_heights_witness :
  exists line,
    station_graph parse_decimal iso_key iso_key keep_every_label "X" None None
      (mkReader "tideReadings.csv" bad_height)
    = (Ok (mkFigure "Time & Date" "Tide Height(m)" "X" 90 line),
       mkReader "tideReadings.csv"
         (setitem bad_height "tideValue" [VFloat 1; VFloat 0; VFloat 3]))
    /\ line = [(VStr two_am, VFloat 1); (VStr three_am, VFloat 0);
               (VStr four_am, VFloat 3)].
Proof.
  destruct (station_graph_plots_coerced_heights parse_decimal iso_key iso_key keep_every_label
              "tideReadings.csv" bad_height
              [VStr two_am; VStr three_am; VStr four_am]
              [VStr "X"; VStr "X"; VStr "X"]
              [VStr "1.0"; VStr "bad"; VStr "3.0"] "X")
    as (line & Hrun & _).
  - repeat split; reflexivity.
  - repeat constructor.
  - apply has_duplicate_false_iff. reflexivity.
  - simpl. auto.
  - exists line. split; [exact Hrun|].
    vm_compute in Hrun. now injection Hrun as <-.
Defined.

(** X8 on two stations, asked for a third. *)
Lemma station_graph_unknown_station_witness :
  station_graph parse_decimal iso_key iso_key keep_every_label "Dover" None None
    (mkReader "tideReadings.csv" newlyn_bangor)
  = (Err (KeyError "Dover"),
     mkReader "tideReadings.csv"
       (setitem newlyn_bangor "tideValue"
          (map (zero_filled parse_decimal) [VFloat (937 # 1000); VFloat (6 # 5)]))).
Proof.
  apply (station_graph_unknown_station parse_decimal iso_key iso_key keep_every_label
           "tideReadings.csv" newlyn_bangor
           [VStr two_am; VStr two_am] [VStr "Newlyn"; VStr "Bangor"]
           [VFloat (937 # 1000); VFloat (6 # 5)] "Dover").
  - repeat split; reflexivity.
  - apply has_duplicate_false_iff. reflexivity.
  - simpl. intros [H|[H|[]]]; discriminate.
Defined.

(** X9 on a station read at 02:00 and 03:00, asked from 04:00 to
    02:00. *)
Lemma station_tides_reversed_window_witness :
  fst (station_tides iso_key iso_key keep_every_label (Station "A")
         (Some four_am) (Some two_am)
         (mkReader "tideReadings.csv" two_readings))
  = Ok (mkPivot [] [VStr "A"] []).
Proof.
  apply (station_tides_reversed_window iso_key iso_key keep_every_label (Station "A")
           "tideReadings.csv" two_readings
           [VStr two_am; VStr three_am] [VStr "A"; VStr "A"]
           [VFloat 1; VFloat 5]
           [VTime 20210920020000; VTime 20210920030000]
           four_am two_am 20210920040000%Z 20210920020000%Z).
  - repeat split; reflexivity.
  - reflexivity.
  - repeat constructor; discriminate.
  - apply has_duplicate_false_iff. reflexivity.
  - reflexivity.
  - reflexivity.
  - reflexivity.
Defined.

(** X10 on a file of two records. *)
Lemma load_builds_one_row_per_record_witness :
  exists r,
    Reader_init parse_decimal disk_with_readings "tideReadings.csv" = Ok r
    /\ filename r = "tideReadings.csv"
    /\ reading_count r = 2%nat
    /\ columns (data r) = ["dateTime"; "stationName"; "tideValue"]
    /\ well_formed (data r).
Proof.
  destruct (load_builds_one_row_per_record parse_decimal disk_with_readings
              "tideReadings.csv" ["dateTime"; "stationName"; "tideValue"]
              [[two_am; "Newlyn"; "0.937"]; [two_am; "Bangor"; "bad"]])
    as (r & Hr & Hf & Hn & _ & Hc & Hwf & _).
  - reflexivity.
  - discriminate.
  - exists r. repeat split; trivial. apply Hc.
    + repeat constructor; discriminate.
    + repeat constructor; simpl; intuition discriminate.
Defined.

(** X11 on two stations read at the same time, written to a directory
    that does not exist and to the working directory. *)
Lemma write_data_writes_a_loadable_file_witness :
  fst (write_data render_decimal render_iso in_working_directory empty_disk
         "nodir/out.csv" (mkReader "tideReadings.csv" newlyn_bangor))
  = Err (OSError "nodir/out.csv")
  /\ exists fs' r',
       fst (write_data render_decimal render_iso in_working_directory empty_disk
              "out.csv" (mkReader "tideReadings.csv" newlyn_bangor)) = Ok fs'
       /\ fs' "tideReadings.csv" = Missing
       /\ Reader_init parse_decimal fs' "out.csv" = Ok r'
       /\ reading_count r' = 2%nat.
Proof.
  destruct (write_data_writes_a_loadable_file parse_decimal render_decimal
              render_iso in_working_directory empty_disk "nodir/out.csv"
              (mkReader "tideReadings.csv" newlyn_bangor)) as (_ & Hbad & _).
  destruct (write_data_writes_a_loadable_file parse_decimal render_decimal
              render_iso in_working_directory empty_disk "out.csv"
              (mkReader "tideReadings.csv" newlyn_bangor)) as (_ & _ & Hgood).
  split; [exact (Hbad eq_refl)|].
  destruct (Hgood eq_refl) as (fs' & records & r' & Hw & Hother & _ & _ & _ & Hl & Hn & _).
  exists fs', r'. split; [exact Hw|]. split; [|split; [exact Hl|exact Hn]].
  now rewrite Hother.
Defined.

(** X13 on two stations read an hour apart: Bangor has no height at
    02:00. *)
Lemma station_tides_fills_gaps_witness :
  exists p series,
    fst (station_tides iso_key iso_key keep_every_label (Station "Bangor") None None
           (mkReader "tideReadings.csv" staggered)) = Ok p
    /\ pindex p = [VTime 20210920020000; VTime 20210920030000]
    /\ pivot_getitem p "Bangor" = Ok series
    /\ In (VTime 20210920020000, VNaN) series.
Proof.
  destruct (station_tides_fills_gaps iso_key iso_key keep_every_label (Station "Bangor")
              "tideReadings.csv" staggered
              [VStr two_am; VStr three_am] [VStr "Newlyn"; VStr "Bangor"]
              [VFloat (937 # 1000); VStr "bad"]
              [VTime 20210920020000; VTime 20210920030000]
              20210920020000%Z "Bangor")
    as (p & series & Hp & Hi & _ & Hs & _ & Hin).
  - repeat split; reflexivity.
  - reflexivity.
  - apply has_duplicate_false_iff. reflexivity.
  - simpl. auto.
  - simpl. auto.
  - intros h [H|[H|[]]]; discriminate.
  - exists p, series. repeat split; trivial.
Defined.

(** X14 on two stations read at the same time. *)
Lemma station_tides_returns_ordered_table_witness :
  exists p,
    fst (station_tides iso_key iso_key keep_every_label
           (Stations ["Newlyn"; "Bangor"]) None None
           (mkReader "tideReadings.csv" newlyn_bangor)) = Ok p
    /\ pcolumns p = [VStr "Bangor"; VStr "Newlyn"]
    /\ StronglySorted key_lt (pcolumns p)
    /\ NoDup (pcolumns p)
    /\ List.length (pcells p) = List.length (pindex p).
Proof.
  exists (mkPivot [VTime 20210920020000]
                  [VStr "Bangor"; VStr "Newlyn"]
                  [[VFloat (6 # 5); VFloat (937 # 1000)]]).
  destruct (station_tides_returns_ordered_table parse_decimal iso_key iso_key
              keep_every_label
              (Stations ["Newlyn"; "Bangor"]) None None
              (mkReader "tideReadings.csv" newlyn_bangor)
              [VStr "Newlyn"; VStr "Bangor"]
              (mkPivot [VTime 20210920020000]
                       [VStr "Bangor"; VStr "Newlyn"]
                       [[VFloat (6 # 5); VFloat (937 # 1000)]]))
    as (_ & Hc & _ & _ & _ & Hnd & Hl & _).
  - reflexivity.
  - right. split.
    + repeat constructor.
    + left. exists "Newlyn". split; reflexivity.
  - reflexivity.
  - repeat split; trivial.
Defined.


(** X17 on the heights 1.0, "bad", 3.0 of one station. *)
Lemma aggregate_leaves_numbers_and_timestamps_witness :
  exists tv dt,
    getitem (data (snd (max_tides parse_decimal iso_key slice_every_row None None
                          (mkReader "tideReadings.csv" bad_height)))) "tideValue"
    = Ok tv
    /\ getitem (data (snd (max_tides parse_decimal iso_key slice_every_row None None
                             (mkReader "tideReadings.csv" bad_height)))) "dateTime"
       = Ok dt
    /\ tv = [VFloat 1; VFloat 0; VFloat 3]
    /\ dt = [VTime 20210920020000; VTime 20210920030000; VTime 20210920040000]
    /\ Forall (fun v => exists q, v = VFloat q) tv
    /\ time_column dt.
Proof.
  destruct (aggregate_leaves_numbers_and_timestamps parse_decimal iso_key
              slice_every_row None None (mkReader "tideReadings.csv" bad_height)
              (AppliedSeries [(VStr "X", VFloat 3)]) (or_introl eq_refl))
    as (tv & dt & Htv & Hdt & _ & _ & Hnum & Htime).
  exists tv, dt. repeat split; trivial.
  - vm_compute in Htv. now injection Htv as <-.
  - vm_compute in Hdt. now injection Hdt as <-.
Defined.
